(** * Classroom submission helper (app.py): model and properties

    A shallow embedding of the Flask application in [app.py]: the credential
    routine [authenticate], and the handlers [auth], [assignments] and
    [submit] with their helpers [get_services], [upload_file_to_drive] and
    [submit_assignment].

    The program is glue code: it reads and writes two local files, keeps a
    scratch directory, and talks to Google's OAuth endpoints and to the
    Classroom and Drive services.  The model therefore has
    - JSON values with the Python operations the code applies to them
      (membership, subscripting, [.get], truth value, formatting);
    - Python exceptions as a result type, with [try]/[except] by class;
    - a world: the two files, the scratch directory, the state of everything
      remote;
    - for each run, a chronological trace of what the program did;
    - the third-party libraries and the remote services as section
      variables: every statement holds whatever they answer.

    Logging is left out: no control flow depends on it. *)

From Stdlib Require Import ZArith Ascii String List Bool Lia.
From stdpp Require Import base option list strings gmap pretty.
Import ListNotations.
Local Open Scope string_scope.

(** ** JSON values, as [json.load] and the API client hand them to the code *)

(** A JSON document as the Python value it decodes to: [None], [bool], [int],
    [str], [list], [dict].  A dict is an association list read from the left
    (the first binding of a key is the one the dict holds).  Numbers with a
    fractional part do not occur in what the program reads. *)
#[warnings="-register-all"] Inductive json : Type :=
| JNull
| JBool (b : bool)
| JInt (z : Z)
| JStr (s : string)
| JList (l : list json)
| JDict (d : list (string * json)).

(** ** Exceptions *)

Inductive exn_class : Type :=
| TypeError
| KeyError
| IndexError
| AttributeError
| FileNotFoundError
| UnicodeDecodeError
| JSONDecodeError
| BadRequestKeyError
| PlainException              (* raise Exception(...) *)
| LibraryError (name : string). (* raised by a client library or a provider:
                                   RefreshError, HttpError, ValueError, ...;
                                   never one of the classes above *)

Record exn : Type := Exn { exn_cls : exn_class; exn_str : string }.

Inductive outcome (A : Type) : Type :=
| Ok (a : A)
| Raise (e : exn).
Arguments Ok {A} a.
Arguments Raise {A} e.

(** [except (UnicodeDecodeError, json.JSONDecodeError)] *)
Definition is_decode_error (e : exn) : bool :=
  match exn_cls e with
  | UnicodeDecodeError | JSONDecodeError => true
  | _ => false
  end.

(** Expressions that may raise, evaluated left to right. *)
Definition and_then {A B} (o : outcome A) (k : A -> outcome B) : outcome B :=
  match o with
  | Ok a => k a
  | Raise e => Raise e
  end.

Declare Scope expr_scope.
Delimit Scope expr_scope with expr.
Notation "'let?' x := o 'in' k" := (and_then o (fun x => k))
  (at level 10, x name, o at level 100, k at level 200) : expr_scope.

(** ** Python operations on decoded JSON *)

Definition assoc (k : string) (d : list (string * json)) : option json :=
  snd <$> List.find (fun kv => String.eqb (fst kv) k) d.

(** [needle in hay] on two strings. *)
Fixpoint str_contains (needle hay : string) : bool :=
  String.prefix needle hay ||
  match hay with
  | EmptyString => false
  | String _ rest => str_contains needle rest
  end.

Definition is_str (k : string) (j : json) : bool :=
  match j with JStr s => String.eqb s k | _ => false end.

(** [bool(j)] *)
Definition py_truthy (j : json) : bool :=
  match j with
  | JNull => false
  | JBool b => b
  | JInt z => negb (Z.eqb z 0)
  | JStr s => negb (String.eqb s EmptyString)
  | JList l => match l with [] => false | _ => true end
  | JDict d => match d with [] => false | _ => true end
  end.

(** [k in j] for a string [k]: key of a dict, element of a list, substring of
    a string; anything else is not iterable. *)
Definition py_contains (k : string) (j : json) : outcome bool :=
  match j with
  | JDict d => Ok (bool_decide (is_Some (assoc k d)))
  | JList l => Ok (existsb (is_str k) l)
  | JStr s => Ok (str_contains k s)
  | _ => Raise (Exn TypeError "argument is not iterable")
  end.

(** [j[k]] for a string [k]. *)
Definition py_getitem (j : json) (k : string) : outcome json :=
  match j with
  | JDict d =>
      match assoc k d with
      | Some v => Ok v
      | None => Raise (Exn KeyError ("'" +:+ k +:+ "'"))
      end
  | JList _ => Raise (Exn TypeError "list indices must be integers or slices, not str")
  | JStr _ => Raise (Exn TypeError "string indices must be integers")
  | _ => Raise (Exn TypeError "object is not subscriptable")
  end.

(** [j[0]] *)
Definition py_first (j : json) : outcome json :=
  match j with
  | JList (x :: _) => Ok x
  | JList [] => Raise (Exn IndexError "list index out of range")
  | JStr (String c _) => Ok (JStr (String c EmptyString))
  | JStr EmptyString => Raise (Exn IndexError "string index out of range")
  | JDict _ => Raise (Exn KeyError "0")
  | _ => Raise (Exn TypeError "object is not subscriptable")
  end.

(** [j.get(k, dflt)]: only a dict has the method. *)
Definition py_get (j : json) (k : string) (dflt : json) : outcome json :=
  match j with
  | JDict d => Ok (default dflt (assoc k d))
  | _ => Raise (Exn AttributeError "object has no attribute 'get'")
  end.

(** [for x in j]: the elements of a list, the keys of a dict, the characters
    of a string. *)
Fixpoint chars (s : string) : list json :=
  match s with
  | EmptyString => []
  | String c rest => JStr (String c EmptyString) :: chars rest
  end.

Definition py_iter (j : json) : outcome (list json) :=
  match j with
  | JList l => Ok l
  | JDict d => Ok (map (fun kv => JStr (fst kv)) d)
  | JStr s => Ok (chars s)
  | _ => Raise (Exn TypeError "object is not iterable")
  end.

(** [f"{j}"], that is [str(j)].  The text Python prints for a list or a dict
    ([repr] of each element, with its quoting rules) is the parameter
    [repr_container]. *)
Definition py_str (repr_container : json -> string) (j : json) : string :=
  match j with
  | JNull => "None"
  | JBool true => "True"
  | JBool false => "False"
  | JInt z => pretty z
  | JStr s => s
  | _ => repr_container j
  end.

(** [os.path.join(a, b)] on a POSIX path, for a non-empty [a] that does not
    end in a slash: an absolute [b] replaces [a]. *)
Definition path_join (a b : string) : string :=
  if String.prefix "/" b then b else a +:+ "/" +:+ b.

(** [os.path.basename(p)]: what follows the last slash. *)
Fixpoint basename_from (acc p : string) : string :=
  match p with
  | EmptyString => acc
  | String c rest =>
      if Ascii.eqb c "/"%char then basename_from EmptyString rest
      else basename_from (acc +:+ String c EmptyString) rest
  end.

Definition basename (p : string) : string := basename_from EmptyString p.

(** ** Credentials *)

(** [google.oauth2.credentials.Credentials], as far as the program reads it:
    the access token, the refresh token, and whether the expiry has passed
    at the time of the request. *)
Record Credentials : Type := mkCredentials {
  token : option string;
  refresh_token : option string;
  expired : bool
}.

(** [creds.valid]: the library's property, [token is not None and not
    expired]. *)
Definition valid (c : Credentials) : bool :=
  bool_decide (is_Some (token c)) && negb (expired c).

(** The truth value of [creds.refresh_token]: a non-empty string. *)
Definition has_refresh_token (c : Credentials) : bool :=
  match refresh_token c with
  | Some s => negb (String.eqb s EmptyString)
  | None => false
  end.

(** ** Constants of the module *)

(** The prompt of line 94.  The other fixed arguments of the OAuth calls
    (the scopes, the redirect URI, port 8080, offline access and forced
    consent) are the same at every call and stay inside the library
    functions below. *)
Definition AUTH_PROMPT : string :=
  "Please authorize this application to access your Google account".

(** ** Files *)

(** What a text file is to [open(..., encoding='utf-8')] followed by
    [json.load]: bytes that are not UTF-8, text that is not JSON, or a JSON
    document. *)
Inductive file_text : Type :=
| NotUtf8
| NotJson
| JsonDoc (j : json).

(** ** Requests to the remote services *)

(** One call built with the API client, [service.a().b().method(k1=v1, ...)],
    then [.execute()].  [media] is the [media_body] of an upload: the local
    path and the bytes read from it. *)
Record api_request : Type := mkRequest {
  service : string;
  resource : list string;
  method : string;
  kwargs : list (string * json);
  media : option (string * string)
}.

Definition studentSubmissions : list string :=
  ["courses"; "courseWork"; "studentSubmissions"].

Definition classroom (res : list string) (m : string) (kw : list (string * json))
  : api_request :=
  mkRequest "classroom" res m kw None.

(** ** The trace *)

Inductive event : Type :=
| TokenUnlink                               (* TOKEN_PATH.unlink() done *)
| TokenWrite (c : Credentials)              (* token.write(creds.to_json()) *)
| ScratchSave (path : string)               (* file.save(path) *)
| ScratchRemove (path : string)             (* os.remove(path) done *)
| Refresh (c : Credentials) (r : outcome Credentials)
| FlowCreate (r : outcome unit)             (* from_client_secrets_file *)
| FlowUrl (r : outcome string)              (* flow.authorization_url *)
| FlowRun (prompt : option string) (r : outcome Credentials)
                                            (* flow.run_local_server *)
| Build (name version : string) (r : outcome unit)
| Execute (req : api_request) (r : outcome json).

(** The interactive consent flow has started: a flow object was asked for. *)
Definition is_consent (e : event) : bool :=
  match e with
  | FlowCreate _ | FlowUrl _ | FlowRun _ _ => true
  | _ => false
  end.


(** A call of [method] on the student submissions of Classroom. *)
Definition is_submission_call (m : string) (e : event) : bool :=
  match e with
  | Execute req _ =>
      String.eqb (service req) "classroom" &&
      bool_decide (resource req = studentSubmissions) &&
      String.eqb (method req) m
  | _ => false
  end.

(** ** The world *)

(** [remote] is the state of everything the program reaches over the
    network (the OAuth endpoints, Classroom, Drive, the user in front of the
    consent screen); its type is left open.  [scratch] holds the local files
    other than the two named ones, by path; writing a file always works. *)
Record world (R : Type) : Type := World {
  token_file : option file_text;        (* TOKEN_PATH *)
  credentials_file : option file_text;  (* CREDENTIALS_PATH *)
  scratch : gmap string string;
  remote : R
}.
Arguments World {R}.
Arguments token_file {R}.
Arguments credentials_file {R}.
Arguments scratch {R}.
Arguments remote {R}.

(** What the program does not contain: the Google client libraries and the
    services behind them.  The first four are functions of their arguments;
    the others act on the remote state. *)
Record externals (R : Type) : Type := Externals {
  from_authorized_user_info : json -> outcome Credentials;
  to_json : Credentials -> json;
  repr_container : json -> string;
  from_client_secrets_file : option file_text -> outcome unit;
  refresh : Credentials -> R -> outcome Credentials * R;
  authorization_url : R -> outcome string * R;
  run_local_server : option string -> R -> outcome Credentials * R;
  build : string -> string -> option Credentials -> R -> outcome unit * R;
  execute : api_request -> R -> outcome json * R
}.
Arguments Externals {R}.
Arguments from_authorized_user_info {R}.
Arguments to_json {R}.
Arguments repr_container {R}.
Arguments from_client_secrets_file {R}.
Arguments refresh {R}.
Arguments authorization_url {R}.
Arguments run_local_server {R}.
Arguments build {R}.
Arguments execute {R}.

(** ** Programs: state, exceptions and a trace *)

(** One run of a piece of the program: what it returned or raised, the world
    it left, and what it did, in order. *)
Record run (R A : Type) : Type := Run {
  result : outcome A;
  after : world R;
  events : list event
}.
Arguments Run {R A}.
Arguments result {R A}.
Arguments after {R A}.
Arguments events {R A}.

Definition M (R A : Type) : Type := world R -> run R A.

Definition ret {R A} (a : A) : M R A := fun w => Run (Ok a) w [].

(** [after_events t r]: the run [r], taken after the events [t]. *)
Definition after_events {R A} (t : list event) (r : run R A) : run R A :=
  match r with Run o w t' => Run o w (t ++ t') end.

Definition bind {R A B} (m : M R A) (k : A -> M R B) : M R B :=
  fun w =>
    match m w with
    | Run (Ok a) w1 t1 => after_events t1 (k a w1)
    | Run (Raise e) w1 t1 => Run (Raise e) w1 t1
    end.

Definition raise {R A} (e : exn) : M R A := fun w => Run (Raise e) w [].

(** The value or the exception of a pure Python operation. *)
Definition lift {R A} (o : outcome A) : M R A := fun w => Run o w [].

(** [try: body / except <classes> as e: handler e] *)
Definition try_except {R A} (body : M R A) (catches : exn -> bool)
  (handler : exn -> M R A) : M R A :=
  fun w =>
    match body w with
    | Run (Ok a) w1 t1 => Run (Ok a) w1 t1
    | Run (Raise e) w1 t1 =>
        if catches e then after_events t1 (handler e w1)
        else Run (Raise e) w1 t1
    end.

(** [except Exception]: every modelled class derives from it. *)
Definition any_exception (e : exn) : bool := true.

Declare Scope prog_scope.
Delimit Scope prog_scope with prog.
Notation "x <- m ;; k" := (bind m (fun x => k))
  (at level 100, m at next level, k at level 200, right associativity)
  : prog_scope.
Notation "m ;;; k" := (bind m (fun _ => k))
  (at level 100, k at level 200, right associativity) : prog_scope.
Local Open Scope prog_scope.

Definition set_remote {R} (r : R) (w : world R) : world R :=
  World (token_file w) (credentials_file w) (scratch w) r.

Definition set_token {R} (t : option file_text) (w : world R) : world R :=
  World t (credentials_file w) (scratch w) (remote w).

Definition set_scratch {R} (s : gmap string string) (w : world R) : world R :=
  World (token_file w) (credentials_file w) s (remote w).

(** A call that leaves the program: the remote state answers and moves on,
    and the trace records the call with its answer. *)
Definition external {R A} (f : R -> outcome A * R) (ev : outcome A -> event)
  : M R A :=
  fun w => let '(o, r) := f (remote w) in Run o (set_remote r w) [ev o].

(** A library function of its arguments only, recorded all the same. *)
Definition library {R A} (o : outcome A) (ev : outcome A -> event) : M R A :=
  fun w => Run o w [ev o].

(** ** The HTTP side *)

Record upload : Type := Upload { filename : string; content : string }.

(** [request.form] and [request.files] of a POST. *)
Record request : Type := Request {
  form : list (string * string);
  files : list (string * upload)
}.

(** What a view function returns: [jsonify(body)] with a status, or
    [redirect(url_for(endpoint))].  A view that raises instead makes the
    request fail outside the program's control. *)
Inductive response : Type :=
| Jsonify (status : Z) (body : json)
| RedirectTo (endpoint : string).

Definition error_body (msg : string) : json := JDict [("error", JStr msg)].

(** [request.form[k]], [request.files[k]] *)
Definition lookup_field {A} (k : string) (l : list (string * A)) : outcome A :=
  match List.find (fun kv => String.eqb (fst kv) k) l with
  | Some kv => Ok (snd kv)
  | None => Raise (Exn BadRequestKeyError k)
  end.

(** ** The two expressions of the assignment listing *)

(** Line 179: [submissions['studentSubmissions'][0]['state'] if
    submissions.get('studentSubmissions') else 'NOT_SUBMITTED'] *)
Definition submission_status (submissions : json) : outcome json :=
  (let? subs := py_get submissions "studentSubmissions" JNull in
   if py_truthy subs then
     let? l := py_getitem submissions "studentSubmissions" in
     let? first := py_first l in
     py_getitem first "state"
   else Ok (JStr "NOT_SUBMITTED"))%expr.

(** Lines 180-181: [due_date = work.get('dueDate', {})], then the f-string
    of year, month and day with default 'N/A' if [due_date], else
    'No due date'. *)
Definition format_due (repr : json -> string) (work : json) : outcome string :=
  (let? due_date := py_get work "dueDate" (JDict []) in
   if py_truthy due_date then
     let? y := py_get due_date "year" (JStr "N/A") in
     let? m := py_get due_date "month" (JStr "N/A") in
     let? d := py_get due_date "day" (JStr "N/A") in
     Ok (py_str repr y +:+ "-" +:+ py_str repr m +:+ "-" +:+ py_str repr d)
   else Ok "No due date")%expr.

(** ** The program *)

Section Program.
Context {R : Type} (ext : externals R).

(** *** Local files *)

(** [TOKEN_PATH.exists()] *)
Definition token_exists : M R bool :=
  fun w => Run (Ok (bool_decide (is_Some (token_file w)))) w [].

(** [CREDENTIALS_PATH.exists()] *)
Definition credentials_exist : M R bool :=
  fun w => Run (Ok (bool_decide (is_Some (credentials_file w)))) w [].

(** [with open(TOKEN_PATH, 'r', encoding='utf-8') as token:
     json.load(token)] *)
Definition load_token_data : M R json :=
  fun w =>
    match token_file w with
    | None => Run (Raise (Exn FileNotFoundError "token.json")) w []
    | Some NotUtf8 =>
        Run (Raise (Exn UnicodeDecodeError "invalid start byte")) w []
    | Some NotJson => Run (Raise (Exn JSONDecodeError "Expecting value")) w []
    | Some (JsonDoc j) => Run (Ok j) w []
    end.

(** [TOKEN_PATH.unlink()] *)
Definition unlink_token : M R unit :=
  fun w =>
    match token_file w with
    | None => Run (Raise (Exn FileNotFoundError "token.json")) w []
    | Some _ => Run (Ok tt) (set_token None w) [TokenUnlink]
    end.

(** [with open(TOKEN_PATH, 'w', encoding='utf-8') as token:
     token.write(creds.to_json())] *)
Definition write_token (c : Credentials) : M R unit :=
  fun w =>
    Run (Ok tt) (set_token (Some (JsonDoc (to_json ext c))) w) [TokenWrite c].

(** [file.save(path)] *)
Definition file_save (f : upload) (path : string) : M R unit :=
  fun w =>
    Run (Ok tt) (set_scratch (<[path := content f]> (scratch w)) w)
        [ScratchSave path].

(** [os.remove(path)] *)
Definition os_remove (path : string) : M R unit :=
  fun w =>
    match scratch w !! path with
    | None => Run (Raise (Exn FileNotFoundError path)) w []
    | Some _ =>
        Run (Ok tt) (set_scratch (delete path (scratch w)) w)
            [ScratchRemove path]
    end.

(** [MediaFileUpload(path, resumable=True)]: opens the file. *)
Definition media_file_upload (path : string) : M R (string * string) :=
  fun w =>
    match scratch w !! path with
    | None => Run (Raise (Exn FileNotFoundError path)) w []
    | Some bytes => Run (Ok (path, bytes)) w []
    end.

(** *** Calls that leave the program *)

Definition call_refresh (c : Credentials) : M R Credentials :=
  external (refresh ext c) (Refresh c).

Definition flow_create : M R unit :=
  fun w =>
    library (from_client_secrets_file ext (credentials_file w)) FlowCreate w.

Definition flow_url : M R string :=
  external (authorization_url ext) FlowUrl.

Definition flow_run (prompt : option string) : M R Credentials :=
  external (run_local_server ext prompt) (FlowRun prompt).

Definition call_build (name version : string) (creds : option Credentials)
  : M R unit :=
  external (build ext name version creds) (Build name version).

Definition call_execute (req : api_request) : M R json :=
  external (execute ext req) (Execute req).

(** *** authenticate (lines 42-110) *)

(** Lines 44-69: the value of [creds] after the token file was looked at. *)
Definition load_credentials : M R (option Credentials) :=
  ex <- token_exists ;;
  if ex then
    try_except
      (token_data <- load_token_data ;;
       found <- lift (py_contains "refresh_token" token_data) ;;
       if negb found then
         try_except unlink_token any_exception (fun _ => ret tt) ;;;
         ret None
       else
         c <- lift (from_authorized_user_info ext token_data) ;;
         ret (Some c))
      is_decode_error
      (fun _ =>
         try_except unlink_token any_exception (fun _ => ret tt) ;;;
         ret None)
  else ret None.

(** Lines 79-100: the installed-app flow. *)
Definition run_consent : M R Credentials :=
  flow_create ;;;
  flow_url ;;;
  flow_run (Some AUTH_PROMPT).

(** [creds and creds.p] *)
Definition creds_and (p : Credentials -> bool) (creds : option Credentials)
  : bool :=
  match creds with Some c => p c | None => false end.

(** Lines 71-110.  The first test is [not creds or not creds.valid], that
    is, not ([creds and creds.valid]). *)
Definition obtain_credentials (creds : option Credentials)
  : M R (option Credentials) :=
  if negb (creds_and valid creds) then
    creds <- match creds with
             | Some c =>
                 if expired c && has_refresh_token c
                 then c' <- call_refresh c ;; ret (Some c')
                 else c' <- run_consent ;; ret (Some c')
             | None => c' <- run_consent ;; ret (Some c')
             end ;;
    match creds with
    | Some c => if valid c then write_token c else ret tt
    | None => ret tt
    end ;;;
    ret creds
  else ret creds.

Definition authenticate : M R (option Credentials) :=
  creds <- load_credentials ;;
  obtain_credentials creds.

(** *** get_services (lines 112-116) *)
Definition get_services (creds : option Credentials) : M R unit :=
  call_build "classroom" "v1" creds ;;;
  call_build "drive" "v3" creds.

(** *** auth (lines 123-155) *)
Definition auth : M R response :=
  ex <- credentials_exist ;;
  if negb ex then ret (Jsonify 500 (error_body "credentials.json not found"))
  else
    tex <- token_exists ;;
    (if tex then unlink_token else ret tt) ;;;
    try_except
      (flow_create ;;;
       creds <- flow_run None ;;
       write_token creds ;;;
       ret (RedirectTo "courses"))
      any_exception
      (fun e =>
         ret (Jsonify 500
                (error_body ("Authentication failed: " +:+ exn_str e)))).

(** *** assignments (lines 167-183) *)

Definition list_submissions (course_id : string) (work_id : json)
  : api_request :=
  classroom studentSubmissions "list"
    [("courseId", JStr course_id); ("courseWorkId", work_id);
     ("userId", JStr "me")].

(** The body of the loop, lines 176-182: the entry appended for [work]. *)
Definition assignment_entry (course_id : string) (work : json) : M R json :=
  work_id <- lift (py_getitem work "id") ;;
  submissions <- call_execute (list_submissions course_id work_id) ;;
  status <- lift (submission_status submissions) ;;
  due <- lift (format_due (repr_container ext) work) ;;
  id <- lift (py_getitem work "id") ;;
  title <- lift (py_getitem work "title") ;;
  ret (JDict [("id", id); ("title", title); ("due", JStr due);
              ("status", status)]).

(** [for work in assignments: ... assignment_list.append(...)] *)
Fixpoint assignments_loop (course_id : string) (works : list json)
  (assignment_list : list json) : M R (list json) :=
  match works with
  | [] => ret assignment_list
  | work :: rest =>
      entry <- assignment_entry course_id work ;;
      assignments_loop course_id rest (assignment_list ++ [entry])
  end.

Definition list_coursework (course_id : string) : api_request :=
  classroom ["courses"; "courseWork"] "list" [("courseId", JStr course_id)].

Definition assignments (course_id : string) : M R response :=
  creds <- authenticate ;;
  get_services creds ;;;
  coursework <- call_execute (list_coursework course_id) ;;
  items <- lift (py_get coursework "courseWork" (JList [])) ;;
  works <- lift (py_iter items) ;;
  assignment_list <- assignments_loop course_id works [] ;;
  ret (Jsonify 200 (JDict [("assignments", JList assignment_list)])).

(** *** upload_file_to_drive (lines 207-212) *)

(** [drive_service.files().create(body=file_metadata, media_body=media,
    fields='id')] *)
Definition create_file (upl : string * string) : api_request :=
  mkRequest "drive" ["files"] "create"
    [("body", JDict [("name", JStr (basename (fst upl)))]);
     ("fields", JStr "id")]
    (Some upl).

Definition upload_file_to_drive (file_path : string) : M R json :=
  upl <- media_file_upload file_path ;;
  file <- call_execute (create_file upl) ;;
  lift (py_get file "id" JNull).

(** *** submit_assignment (lines 214-237) *)

Definition attachment (file_id : json) (filename : string) : json :=
  JDict [("driveFile", JDict [("id", file_id); ("title", JStr filename)])].

Definition patch_request (course_id coursework_id : string)
  (submission_id file_id : json) (filename : string) : api_request :=
  classroom studentSubmissions "patch"
    [("courseId", JStr course_id); ("courseWorkId", JStr coursework_id);
     ("id", submission_id); ("updateMask", JStr "addAttachments");
     ("body", JDict [("addAttachments",
                      JList [attachment file_id filename])])].

(** Lines 235-237, with the keyword arguments as the source has them. *)
Definition turnIn_request (coursework_id : string) (submission_id : json)
  : api_request :=
  classroom studentSubmissions "turnIn"
    [("courseId", JStr coursework_id); ("id", submission_id)].

Definition submit_assignment (course_id coursework_id : string)
  (file_id : json) (filename : string) : M R unit :=
  submissions <- call_execute
    (list_submissions course_id (JStr coursework_id)) ;;
  subs <- lift (py_get submissions "studentSubmissions" JNull) ;;
  submission <-
    (if py_truthy subs then
       l <- lift (py_getitem submissions "studentSubmissions") ;;
       submission <- lift (py_first l) ;;
       state <- lift (py_getitem submission "state") ;;
       if is_str "TURNED_IN" state
       then raise (Exn PlainException "Assignment already turned in.")
       else ret submission
     else
       call_execute
         (classroom studentSubmissions "create"
            [("courseId", JStr course_id);
             ("courseWorkId", JStr coursework_id);
             ("body", JDict [("state", JStr "DRAFT")])])) ;;
  sid <- lift (py_getitem submission "id") ;;
  call_execute (patch_request course_id coursework_id sid file_id filename) ;;;
  sid' <- lift (py_getitem submission "id") ;;
  call_execute (turnIn_request coursework_id sid') ;;;
  ret tt.

(** *** submit (lines 185-205) *)

Definition success_body (coursework_id : string) : json :=
  JDict [("message",
          JStr ("Assignment " +:+ coursework_id +:+ " submitted successfully."))].

(** Lines 198-203: the body of the [try]. *)
Definition submit_body (course_id coursework_id : string) (file : upload)
  (file_path : string) : M R response :=
  file_id <- upload_file_to_drive file_path ;;
  submit_assignment course_id coursework_id file_id (filename file) ;;;
  os_remove file_path ;;;
  ret (Jsonify 200 (success_body coursework_id)).

(** Lines 204-205: [except Exception as e]. *)
Definition submit_failed (e : exn) : M R response :=
  ret (Jsonify 500 (error_body (exn_str e))).

Definition submit (req : request) : M R response :=
  creds <- authenticate ;;
  get_services creds ;;;
  course_id <- lift (lookup_field "course_id" (form req)) ;;
  coursework_id <- lift (lookup_field "assignment_id" (form req)) ;;
  file <- lift (lookup_field "file" (files req)) ;;
  let file_path := path_join "uploads" (filename file) in
  (* os.makedirs('uploads', exist_ok=True): directories are not modelled *)
  file_save file file_path ;;;
  try_except (submit_body course_id coursework_id file file_path)
    any_exception submit_failed.
(** *** courses (lines 158-165) *)

Definition list_courses : api_request :=
  classroom ["courses"] "list" [("studentId", JStr "me")].

(** [{'id': course['id'], 'name': course['name']}] *)
Definition course_entry (course : json) : outcome json :=
  (let? id := py_getitem course "id" in
   let? name := py_getitem course "name" in
   Ok (JDict [("id", id); ("name", name)]))%expr.

(** [[course_entry(course) for course in courses]] *)
Fixpoint course_entries (courses : list json) : outcome (list json) :=
  match courses with
  | [] => Ok []
  | course :: rest =>
      (let? entry := course_entry course in
       let? entries := course_entries rest in
       Ok (entry :: entries))%expr
  end.

Definition courses : M R response :=
  creds <- authenticate ;;
  get_services creds ;;;
  results <- call_execute list_courses ;;
  found <- lift (py_get results "courses" (JList [])) ;;
  items <- lift (py_iter found) ;;
  entries <- lift (course_entries items) ;;
  ret (Jsonify 200 (JDict [("courses", JList entries)])).

(** *** check_redirect_uri (lines 239-253) *)

Definition APP_REDIRECT_URI : string := "http://localhost:5000/oauth2callback".

(** [with open(CREDENTIALS_PATH, 'r') as f: json.load(f)] *)
Definition load_credentials_data : M R json :=
  fun w =>
    match credentials_file w with
    | None => Run (Raise (Exn FileNotFoundError "credentials.json")) w []
    | Some NotUtf8 =>
        Run (Raise (Exn UnicodeDecodeError "invalid start byte")) w []
    | Some NotJson => Run (Raise (Exn JSONDecodeError "Expecting value")) w []
    | Some (JsonDoc j) => Run (Ok j) w []
    end.

Definition redirect_report (redirect_uris : json) : json :=
  JDict [("configured_redirect_uris", redirect_uris);
         ("app_redirect_uri", JStr APP_REDIRECT_URI)].

Definition check_redirect_uri : M R response :=
  ex <- credentials_exist ;;
  if ex then
    try_except
      (creds_data <- load_credentials_data ;;
       web <- lift (py_get creds_data "web" (JDict [])) ;;
       redirect_uris <- lift (py_get web "redirect_uris" (JList [])) ;;
       ret (Jsonify 200 (redirect_report redirect_uris)))
      any_exception
      (fun e =>
         ret (Jsonify 200
                (error_body ("Error reading credentials file: " +:+ exn_str e))))
  else ret (Jsonify 200 (error_body "credentials.json not found")).
End Program.

(** ** What the claims speak of, read off a response of the service *)

(** The first submission a listing holds, if it holds one. *)
Definition existing_submission (listing : json) : option json :=
  match listing with
  | JDict d =>
      match assoc "studentSubmissions" d with
      | Some (JList (s :: _)) => Some s
      | _ => None
      end
  | _ => None
  end.

Definition submission_field (k : string) (s : json) : option json :=
  match s with JDict d => assoc k d | _ => None end.

(** The status to report for a listing: the state of the existing
    submission, "not submitted" when there is none. *)
Definition reported_status (listing : json) : option json :=
  match existing_submission listing with
  | Some s => submission_field "state" s
  | None => Some (JStr "NOT_SUBMITTED")
  end.

(** A listing without submissions, in the two shapes the service gives it:
    the field left out, or an empty list. *)
Definition no_submissions (listing : json) : bool :=
  match listing with
  | JDict d =>
      match assoc "studentSubmissions" d with
      | None | Some (JList []) => true
      | _ => false
      end
  | _ => false
  end.

(** One component of a due-date record: its value when present, the
    placeholder when absent. *)
Definition due_component (repr : json -> string) (k : string)
  (d : list (string * json)) : string :=
  match assoc k d with
  | Some v => py_str repr v
  | None => "N/A"
  end.

Definition due_of_record (repr : json -> string) (d : list (string * json))
  : string :=
  due_component repr "year" d +:+ "-" +:+ due_component repr "month" d
  +:+ "-" +:+ due_component repr "day" d.

(** The due string of a coursework item as the claim on due dates words it:
    the sentinel when the item has no due-date field, the three components
    when it has a due-date record. *)
Definition due_as_claimed (repr : json -> string) (work : json)
  : option string :=
  match work with
  | JDict wd =>
      match assoc "dueDate" wd with
      | None => Some "No due date"
      | Some (JDict d) => Some (due_of_record repr d)
      | Some _ => None
      end
  | _ => None
  end.

(** The same with the empty record set apart: it is reported like a missing
    field. *)
Definition due_of_item (repr : json -> string) (work : json) : option string :=
  match work with
  | JDict wd =>
      match assoc "dueDate" wd with
      | None | Some (JDict []) => Some "No due date"
      | Some (JDict d) => Some (due_of_record repr d)
      | Some _ => None
      end
  | _ => None
  end.

(** [entry] is what the listing reports for [work], given the calls [evs]
    that were made: its id and title, the status computed from the answer to
    the submission query for that id, and the due string. *)
Definition entry_of (repr : json -> string) (course_id : string)
  (evs : list event) (work entry : json) : Prop :=
  exists id title listing status due,
    py_getitem work "id" = Ok id /\
    py_getitem work "title" = Ok title /\
    In (Execute (list_submissions course_id id) (Ok listing)) evs /\
    submission_status listing = Ok status /\
    format_due repr work = Ok due /\
    entry = JDict [("id", id); ("title", title); ("due", JStr due);
                   ("status", status)].

(** The coursework items a listing of the course holds. *)
Definition listed_works (coursework : json) : outcome (list json) :=
  and_then (py_get coursework "courseWork" (JList [])) py_iter.

(** ** A stand-in for the remote side

    A small cooperative service on which the program can be run on concrete
    requests.  It keeps submissions by course, coursework and identifier, and
    -- like the API client -- refuses a call that does not name all three
    where the method needs them. *)
Module Standin.

Record submission : Type := Submission {
  sub_course : string;
  sub_work : string;
  sub_id : string;
  sub_state : string;
  sub_attachments : list json
}.

Record backend : Type := Backend {
  coursework : list json;              (* listed for every course *)
  submissions : list submission;
  token_endpoint : outcome Credentials; (* the answer to a refresh *)
  consent_screen : outcome Credentials  (* how the consent flow ends *)
}.

Definition kw (k : string) (req : api_request) : option json :=
  assoc k (kwargs req).

Definition submission_json (s : submission) : json :=
  JDict [("courseId", JStr (sub_course s));
         ("courseWorkId", JStr (sub_work s));
         ("id", JStr (sub_id s));
         ("state", JStr (sub_state s))].

Definition addressed (c k : string) (s : submission) : bool :=
  String.eqb (sub_course s) c && String.eqb (sub_work s) k.

Definition is_target (c k i : string) (s : submission) : bool :=
  addressed c k s && String.eqb (sub_id s) i.

Definition with_submissions (l : list submission) (r : backend) : backend :=
  Backend (coursework r) l (token_endpoint r) (consent_screen r).

Definition update (c k i : string) (f : submission -> submission)
  (r : backend) : backend :=
  with_submissions
    (map (fun s => if is_target c k i s then f s else s) (submissions r)) r.

Definition missing {A} (p : string) (r : backend) : outcome A * backend :=
  (Raise (Exn TypeError ("Missing required parameter " +:+ p)), r).

Definition not_found {A} (r : backend) : outcome A * backend :=
  (Raise (Exn (LibraryError "HttpError") "404 Requested entity was not found."), r).

Definition added_attachments (req : api_request) : list json :=
  match kw "body" req with
  | Some (JDict b) =>
      match assoc "addAttachments" b with
      | Some (JList l) => l
      | _ => []
      end
  | _ => []
  end.

(** A call on one submission: [patch] adds the attachments of the body to
    those the submission has, [turnIn] moves it to TURNED_IN. *)
Definition on_submission (req : api_request) (c k : string) (r : backend)
  : outcome json * backend :=
  match kw "id" req with
  | Some (JStr i) =>
      match List.find (is_target c k i) (submissions r) with
      | Some s =>
          if String.eqb (method req) "patch" then
            (Ok (submission_json s),
             update c k i
               (fun s => Submission (sub_course s) (sub_work s) (sub_id s)
                           (sub_state s)
                           (sub_attachments s ++ added_attachments req)) r)
          else
            (Ok (JDict []),
             update c k i
               (fun s => Submission (sub_course s) (sub_work s) (sub_id s)
                           "TURNED_IN" (sub_attachments s)) r)
      | None => not_found r
      end
  | _ => missing "id" r
  end.

Definition on_submissions (req : api_request) (r : backend)
  : outcome json * backend :=
  match kw "courseId" req, kw "courseWorkId" req with
  | Some (JStr c), Some (JStr k) =>
      if String.eqb (method req) "list" then
        match filter (fun s => addressed c k s = true) (submissions r) with
        | [] => (Ok (JDict []), r)
        | l => (Ok (JDict [("studentSubmissions",
                            JList (map submission_json l))]), r)
        end
      else if String.eqb (method req) "create" then
        let s := Submission c k "draft-1" "DRAFT" [] in
        (Ok (submission_json s), with_submissions (submissions r ++ [s]) r)
      else on_submission req c k r
  | Some (JStr _), _ => missing "courseWorkId" r
  | _, _ => missing "courseId" r
  end.

Definition serve (req : api_request) (r : backend) : outcome json * backend :=
  if String.eqb (service req) "drive" then
    (Ok (JDict [("id", JStr "drive-file-1")]), r)
  else if bool_decide (resource req = studentSubmissions) then
    on_submissions req r
  else
    (Ok (match coursework r with
         | [] => JDict []
         | l => JDict [("courseWork", JList l)]
         end), r).

Definition text_field (k : string) (d : list (string * json))
  : option string :=
  match assoc k d with Some (JStr s) => Some s | _ => None end.

(** The stored form of a credential, and its reading. *)
Definition store (c : Credentials) : json :=
  JDict ((match token c with Some t => [("token", JStr t)] | None => [] end)
         ++ (match refresh_token c with
             | Some t => [("refresh_token", JStr t)]
             | None => []
             end)
         ++ [("expired", JBool (expired c))]).

Definition restore (j : json) : outcome Credentials :=
  match j with
  | JDict d =>
      Ok (mkCredentials (text_field "token" d) (text_field "refresh_token" d)
            (match assoc "expired" d with
             | Some (JBool true) => true
             | _ => false
             end))
  | _ => Raise (Exn (LibraryError "ValueError") "not in the expected format")
  end.

Definition ext : externals backend :=
  Externals restore store (fun _ => "<container>")
    (fun f => match f with
              | Some (JsonDoc _) => Ok tt
              | _ => Raise (Exn (LibraryError "ValueError") "client secrets")
              end)
    (fun _ r => (token_endpoint r, r))
    (fun r => (Ok "https://accounts.google.com/o/oauth2/auth", r))
    (fun _ r => (consent_screen r, r))
    (fun _ _ _ r => (Ok tt, r))
    serve.

(** A signed-in student with a valid stored credential. *)
Definition alice : Credentials := mkCredentials (Some "ya29.a0") (Some "1//0g") false.

Definition essay : upload := Upload "essay.txt" "My essay.".

Definition post : request :=
  Request [("course_id", "c1"); ("assignment_id", "w1")] [("file", essay)].

Definition signed_in (r : backend) : world backend :=
  World (Some (JsonDoc (store alice))) (Some (JsonDoc (JDict []))) ∅ r.

Definition classroom_with (works : list json) (subs : list submission)
  : backend :=
  Backend works subs (Ok alice) (Ok alice).

(** Alice's submission for coursework w1 of course c1, in a given state. *)
Definition her_submission (state : string) : submission :=
  Submission "c1" "w1" "s1" state [].

(** She has opened the assignment but not handed it in. *)
Definition assigned : world backend :=
  signed_in (classroom_with [] [her_submission "CREATED"]).

(** She has handed it in already. *)
Definition handed_in : world backend :=
  signed_in (classroom_with [] [her_submission "TURNED_IN"]).

(** Two coursework items: an essay due in May 2024, no day given, handed
    in; and a quiz whose due-date record is empty, not yet started. *)
Definition essay_work : json :=
  JDict [("id", JStr "w1"); ("title", JStr "Essay");
         ("dueDate", JDict [("year", JInt 2024); ("month", JInt 5)])].

Definition quiz_work : json :=
  JDict [("id", JStr "w2"); ("title", JStr "Quiz"); ("dueDate", JDict [])].

Definition two_items : world backend :=
  signed_in (classroom_with [essay_work; quiz_work]
               [her_submission "TURNED_IN"]).

Definition two_items_response : response :=
  Jsonify 200
    (JDict [("assignments",
             JList [JDict [("id", JStr "w1"); ("title", JStr "Essay");
                           ("due", JStr "2024-5-N/A");
                           ("status", JStr "TURNED_IN")];
                    JDict [("id", JStr "w2"); ("title", JStr "Quiz");
                           ("due", JStr "No due date");
                           ("status", JStr "NOT_SUBMITTED")]])]).

(** A stored credential that has expired, and a token endpoint that
    refuses to renew it. *)
Definition stale : Credentials :=
  mkCredentials (Some "ya29.old") (Some "1//0g") true.

Definition invalid_grant : exn :=
  Exn (LibraryError "RefreshError") "invalid_grant: Token has been revoked.".

Definition revoked : world backend :=
  World (Some (JsonDoc (store stale))) (Some (JsonDoc (JDict []))) ∅
    (Backend [] [] (Raise invalid_grant) (Ok alice)).

(** The same stored credential, with a token endpoint that renews it. *)
Definition renewable : world backend :=
  World (Some (JsonDoc (store stale))) (Some (JsonDoc (JDict []))) ∅
    (Backend [] [] (Ok alice) (Ok alice)).

(** A user who closes the consent screen. *)
Definition access_denied : exn :=
  Exn (LibraryError "AccessDeniedError") "access_denied".

Definition declining : world backend :=
  World (Some (JsonDoc (store alice))) (Some (JsonDoc (JDict []))) ∅
    (Backend [] [] (Ok alice) (Raise access_denied)).
End Standin.

(** ** Variations of the stand-in *)

(** The externals [base], except that the calls picked by [pick] are
    answered with [answer] and leave the remote state as it is. *)
Definition answering (pick : api_request -> bool) (answer : json)
  (base : externals Standin.backend) : externals Standin.backend :=
  Externals (from_authorized_user_info base) (to_json base)
    (repr_container base) (from_client_secrets_file base) (refresh base)
    (authorization_url base) (run_local_server base) (build base)
    (fun req r => if pick req then (Ok answer, r) else execute base req r).

(** A service that lets the turn-in of line 235 through. *)
Definition accepting : externals Standin.backend :=
  answering (fun req => String.eqb (method req) "turnIn") (JDict [])
    Standin.ext.

(** A service on which the student is enrolled in two courses. *)
Definition two_courses : json :=
  JDict [("courses",
          JList [JDict [("id", JStr "c1"); ("name", JStr "Algebra");
                        ("section", JStr "A")];
                 JDict [("id", JStr "c2"); ("name", JStr "Biology")]])].

Definition enrolled : externals Standin.backend :=
  answering (fun req => bool_decide (resource req = ["courses"])) two_courses
    Standin.ext.

(** A client configuration of the web kind, with one redirect URI. *)
Definition web_config : json :=
  JDict [("web",
          JDict [("client_id", JStr "app.apps.googleusercontent.com");
                 ("redirect_uris", JList [JStr "http://localhost:8080/"])])].

Definition configured : world Standin.backend :=
  World None (Some (JsonDoc web_config)) ∅ (Standin.classroom_with [] []).

(** A request that lacks the assignment id. *)
Definition incomplete_post : request :=
  Request [("course_id", "c1")] [("file", Standin.essay)].

(** No submission yet for the assignment. *)
Definition fresh : world Standin.backend :=
  Standin.signed_in (Standin.classroom_with [] []).

(** A token file that is not JSON, and one whose credential the library
    cannot read. *)
Definition garbled : world Standin.backend :=
  World (Some NotJson) (Some (JsonDoc (JDict []))) ∅
    (Standin.classroom_with [] []).

Definition list_token : world Standin.backend :=
  World (Some (JsonDoc (JList [JStr "refresh_token"])))
    (Some (JsonDoc (JDict []))) ∅ (Standin.classroom_with [] []).

(** A stored credential without an access token that has not expired. *)
Definition tokenless : Credentials := mkCredentials None (Some "1//0g") false.

Definition half_stored : world Standin.backend :=
  World (Some (JsonDoc (Standin.store tokenless))) (Some (JsonDoc (JDict [])))
    ∅ (Standin.classroom_with [] []).


(** A deployment without the client configuration. *)
Definition unconfigured : world Standin.backend :=
  World (Some (JsonDoc (Standin.store Standin.alice))) None ∅
    (Standin.classroom_with [] []).

(** A coursework item without a title. *)
Definition untitled_work : json := JDict [("id", JStr "w3")].

(** More of the vocabulary on traces. *)
Definition is_scratch_save (e : event) : bool :=
  match e with ScratchSave _ => true | _ => false end.

(** ** The statements' vocabulary on traces *)


(** The consent flow itself failed with [e]. *)
Definition consent_failed_with (e : exn) (ev : event) : Prop :=
  match ev with
  | FlowCreate (Raise e') | FlowUrl (Raise e') | FlowRun _ (Raise e') => e' = e
  | _ => False
  end.

Definition is_execute (e : event) : bool :=
  match e with Execute _ _ => true | _ => false end.

(** The calls to Classroom and Drive among the events of a run. *)
Definition calls (evs : list event) : list event :=
  List.filter is_execute evs.

(** * Properties *)

Local Open Scope list_scope.

(** In proofs the Python operations are taken by their equations, not
    unfolded where they stand. *)
#[local] Arguments assoc : simpl never.
#[local] Arguments py_contains : simpl never.
#[local] Arguments py_getitem : simpl never.
#[local] Arguments py_get : simpl never.
#[local] Arguments py_first : simpl never.
#[local] Arguments py_truthy : simpl never.
#[local] Arguments py_iter : simpl never.
#[local] Arguments py_str : simpl never.
#[local] Arguments is_str : simpl never.
#[local] Arguments path_join : simpl never.
#[local] Arguments basename : simpl never.
#[local] Arguments valid : simpl never.
#[local] Arguments has_refresh_token : simpl never.

(** ** Running a program step by step *)

Section Steps.
Context {R : Type}.

Lemma bind_ok {A B} (m : M R A) (k : A -> M R B) w a w1 t1 :
  m w = Run (Ok a) w1 t1 ->
  bind m k w = after_events t1 (k a w1).
Proof. intros H. unfold bind. now rewrite H. Qed.

Lemma bind_raise {A B} (m : M R A) (k : A -> M R B) w e w1 t1 :
  m w = Run (Raise e) w1 t1 ->
  bind m k w = Run (Raise e) w1 t1.
Proof. intros H. unfold bind. now rewrite H. Qed.


Lemma bind_inv_ok {A B} (m : M R A) (k : A -> M R B) w b :
  result (bind m k w) = Ok b ->
  exists a w1 t1,
    m w = Run (Ok a) w1 t1 /\ bind m k w = after_events t1 (k a w1).
Proof.
  unfold bind. destruct (m w) as [[a | e] w1 t1]; cbn; [eauto | discriminate].
Qed.

Lemma external_inv {A} (f : R -> outcome A * R) ev w o w1 t1 :
  external f ev w = Run o w1 t1 ->
  f (remote w) = (o, remote w1) /\ t1 = [ev o] /\
  token_file w1 = token_file w /\ scratch w1 = scratch w.
Proof.
  unfold external. destruct (f (remote w)) as [o' r']. now intros [= -> <- <-].
Qed.

Lemma lift_inv {A} (o : outcome A) (w : world R) o' w1 t1 :
  lift o w = Run o' w1 t1 -> o' = o /\ w1 = w /\ t1 = [].
Proof. now intros [= <- <- <-]. Qed.

Lemma after_events_nil {A} (r : run R A) : after_events [] r = r.
Proof. now destruct r. Qed.

Lemma after_events_app {A} t t' (r : run R A) :
  after_events t (after_events t' r) = after_events (t ++ t') r.
Proof. destruct r. cbn. now rewrite app_assoc. Qed.

Lemma bind_lift_ok {A B} (o : outcome A) (k : A -> M R B) w a :
  o = Ok a -> bind (lift o) k w = k a w.
Proof. intros ->. unfold bind, lift. apply after_events_nil. Qed.

Lemma bind_lift_raise {A B} (o : outcome A) (k : A -> M R B) w e :
  o = Raise e -> bind (lift o) k w = Run (Raise e) w [].
Proof. now intros ->. Qed.

Lemma result_after_events {A} t (r : run R A) :
  result (after_events t r) = result r.
Proof. now destruct r. Qed.

Lemma after_after_events {A} t (r : run R A) :
  after (after_events t r) = after r.
Proof. now destruct r. Qed.

Lemma events_after_events {A} t (r : run R A) :
  events (after_events t r) = t ++ events r.
Proof. now destruct r. Qed.
End Steps.

(** One case split on what the next stuck step answers. *)
Ltac split_step :=
  match goal with
  | |- context [match ?x with _ => _ end] =>
      lazymatch x with
      | context [match _ with _ => _ end] => fail
      | _ => destruct x eqn:?
      end
  | |- context [if ?x then _ else _] =>
      lazymatch x with
      | context [match _ with _ => _ end] => fail
      | context [if _ then _ else _] => fail
      | _ => destruct x eqn:?
      end
  end.

(** [H] says that a bound program returned: name what its first part
    returned, and go on with the rest. *)
Ltac next_bind H a w1 t1 Hm :=
  let Hrun := fresh "Hrun" in
  destruct (bind_inv_ok _ _ _ _ H) as (a & w1 & t1 & Hm & Hrun);
  rewrite Hrun in *; clear Hrun;
  rewrite result_after_events in H;
  rewrite ?events_after_events, ?after_after_events.

(** Compute, using [rw] wherever it applies. *)
Tactic Notation "run_with" tactic3(rw) := repeat progress (cbn; rw).

(** ** The credential routine *)

Section Authenticate.
Context {R : Type} (ext : externals R).

(** A missing token file: no credential, and nothing is touched. *)
Lemma load_missing w :
  token_file w = None ->
  load_credentials ext w = Run (Ok None) w [].
Proof.
  intros H. unfold load_credentials, bind, token_exists.
  run_with (rewrite ?H). reflexivity.
Qed.

(** Text that is not UTF-8 or not JSON: the file goes, no credential. *)
Lemma load_undecodable w t :
  token_file w = Some t -> t = NotUtf8 \/ t = NotJson ->
  load_credentials ext w = Run (Ok None) (set_token None w) [TokenUnlink].
Proof.
  intros H [-> | ->];
    unfold load_credentials, bind, try_except, token_exists, load_token_data,
      unlink_token; run_with (rewrite ?H); reflexivity.
Qed.

(** A JSON object without the key: the file goes, no credential. *)
Lemma load_object_without_refresh_token w d :
  token_file w = Some (JsonDoc (JDict d)) -> assoc "refresh_token" d = None ->
  load_credentials ext w = Run (Ok None) (set_token None w) [TokenUnlink].
Proof.
  intros H Hd.
  assert (Hin : py_contains "refresh_token" (JDict d) = Ok false).
  { unfold py_contains. now rewrite Hd. }
  unfold load_credentials, bind, try_except, token_exists, load_token_data,
    unlink_token, lift.
  run_with (rewrite ?H, ?Hin). reflexivity.
Qed.

(** A readable credential: the file stays. *)
Lemma load_readable w j c :
  token_file w = Some (JsonDoc j) ->
  py_contains "refresh_token" j = Ok true ->
  from_authorized_user_info ext j = Ok c ->
  load_credentials ext w = Run (Ok (Some c)) w [].
Proof.
  intros H Hin Hc.
  unfold load_credentials, bind, try_except, token_exists, load_token_data,
    lift.
  run_with (rewrite ?H, ?Hin, ?Hc). reflexivity.
Qed.

(** What [authenticate] does is what the two halves do. *)
Lemma authenticate_after_load w creds w1 t1 :
  load_credentials ext w = Run (Ok creds) w1 t1 ->
  authenticate ext w = after_events t1 (obtain_credentials ext creds w1).
Proof. intros H. unfold authenticate. now rewrite (bind_ok _ _ _ _ _ _ H). Qed.

(** Loading either fails and leaves everything as it was, or ends with a
    decision; all it may do on the way is remove the token file. *)
Lemma load_credentials_cases w :
  (exists e, load_credentials ext w = Run (Raise e) w []) \/
  (exists creds, load_credentials ext w = Run (Ok creds) w []) \/
  load_credentials ext w = Run (Ok None) (set_token None w) [TokenUnlink].
Proof.
  unfold load_credentials, bind, try_except, token_exists, load_token_data,
    unlink_token, lift, ret.
  destruct (token_file w) as [[| | j] |] eqn:Hf; cbn; rewrite ?Hf; cbn; eauto.
  destruct (py_contains "refresh_token" j) as [[|] | e]; cbn; rewrite ?Hf;
    cbn; eauto.
  - destruct (from_authorized_user_info ext j) as [c | e]; cbn; eauto.
    destruct e as [[] msg]; cbn; rewrite ?Hf; cbn; eauto.
  - destruct e as [[] msg]; cbn; rewrite ?Hf; cbn; eauto.
Qed.

(** C7.  When the token file holds a credential that is valid (it has an
    access token and has not expired), [authenticate] returns that
    credential as it is and does nothing else: no step of the consent flow,
    no refresh, no write; the world is as before. *)
Theorem valid_credential_returned_as_is w j c :
  token_file w = Some (JsonDoc j) ->
  py_contains "refresh_token" j = Ok true ->
  from_authorized_user_info ext j = Ok c ->
  valid c = true ->
  result (authenticate ext w) = Ok (Some c) /\
  events (authenticate ext w) = [] /\
  Forall (fun e => is_consent e = false) (events (authenticate ext w)) /\
  after (authenticate ext w) = w.
Proof.
  intros Hf Hin Hc Hv.
  rewrite (authenticate_after_load w (Some c) w []
             (load_readable w j c Hf Hin Hc)).
  unfold obtain_credentials. cbn. rewrite Hv. cbn. auto.
Qed.


(** C3, at a token file that holds the JSON document [null]: membership
    in [None] raises a [TypeError], which the [except] clause of the loader
    does not name.  [authenticate] fails with it; the file is not removed
    and nothing else is done. *)
Theorem null_token_file_is_not_healed cf sc r :
  let w := World (Some (JsonDoc JNull)) cf sc r in
  result (authenticate ext w) = Raise (Exn TypeError "argument is not iterable")
  /\ token_file (after (authenticate ext w)) = Some (JsonDoc JNull)
  /\ events (authenticate ext w) = [].
Proof. cbn. auto. Qed.

Ltac obtain_cases :=
  unfold obtain_credentials, run_consent, bind, call_refresh, flow_create,
    flow_url, flow_run, external, library, write_token, ret;
  repeat (cbn; try split_step).



(** The events of [authenticate]: those of the loader, at most the removal
    of the token file, then those of the second half. *)
Lemma authenticate_cases w :
  (exists e, authenticate ext w = Run (Raise e) w []) \/
  exists creds w1 t1,
    (t1 = [] \/ t1 = [TokenUnlink]) /\
    scratch w1 = scratch w /\
    authenticate ext w = after_events t1 (obtain_credentials ext creds w1).
Proof.
  destruct (load_credentials_cases w) as [[e H] | [[creds H] | H]].
  - left. exists e. unfold authenticate. now rewrite (bind_raise _ _ _ _ _ _ H).
  - right. exists creds, w, []. repeat split; auto.
    now apply authenticate_after_load.
  - right. exists None, (set_token None w), [TokenUnlink]. repeat split; auto.
    now apply authenticate_after_load.
Qed.


(** [authenticate] and [get_services] call neither Classroom nor Drive,
    and leave the scratch directory alone. *)
Lemma obtain_no_execute creds w :
  Forall (fun e => is_execute e = false)
    (events (obtain_credentials ext creds w)) /\
  scratch (after (obtain_credentials ext creds w)) = scratch w.
Proof.
  destruct creds as [c |]; obtain_cases; split; auto; repeat constructor.
Qed.

Lemma authenticate_no_execute w :
  Forall (fun e => is_execute e = false) (events (authenticate ext w)) /\
  scratch (after (authenticate ext w)) = scratch w.
Proof.
  destruct (authenticate_cases w) as [[e H] | (creds & w1 & t1 & Ht & Hsc & H)].
  - rewrite H. cbn. auto.
  - rewrite H, events_after_events, after_after_events.
    destruct (obtain_no_execute creds w1) as [Hev Hsc'].
    split; [| congruence].
    apply Forall_app. split; auto.
    destruct Ht as [-> | ->]; repeat constructor.
Qed.

Lemma get_services_no_execute creds w :
  Forall (fun e => is_execute e = false)
    (events (get_services ext creds w)) /\
  scratch (after (get_services ext creds w)) = scratch w.
Proof.
  unfold get_services, bind, call_build, external, ret.
  repeat (cbn; try split_step); split; auto; repeat constructor.
Qed.
End Authenticate.

(** ** The handler of GET /auth *)

Section Auth.
Context {R : Type} (ext : externals R).

(** C10.  With the client configuration in place and a token file
    present, the first thing [auth] does is remove the token file; the
    consent flow starts after that.  If a step of the flow then raises [e],
    the handler answers with status 500 and the message of [e], and the
    token file is gone: the stored credential is not what it was before the
    request. *)
Theorem auth_removes_token_before_consent w cf t :
  credentials_file w = Some cf ->
  token_file w = Some t ->
  (exists rest,
      events (auth ext w) =
        TokenUnlink
          :: FlowCreate (from_client_secrets_file ext (Some cf)) :: rest) /\
  (forall e ev,
      In ev (events (auth ext w)) -> consent_failed_with e ev ->
      result (auth ext w) =
        Ok (Jsonify 500
              (error_body ("Authentication failed: " +:+ exn_str e))) /\
      token_file (after (auth ext w)) = None /\
      token_file (after (auth ext w)) <> token_file w).
Proof.
  intros Hc Ht.
  unfold auth, bind, try_except, credentials_exist, token_exists,
    unlink_token, flow_create, flow_run, library, external, write_token, ret.
  run_with (rewrite ?Hc, ?Ht).
  destruct (from_client_secrets_file ext (Some cf)) as [[] | e1]; cbn.
  - destruct (run_local_server ext None (remote w)) as [[c | e2] r']; cbn.
    + split; eauto. intros e ev Hin Hf.
      repeat (destruct Hin as [<- | Hin]; cbn in Hf; try contradiction);
        try contradiction.
    + split; eauto. intros e ev Hin Hf.
      repeat (destruct Hin as [<- | Hin]; cbn in Hf; try contradiction);
        try contradiction.
      subst. repeat split; auto; discriminate.
  - split; eauto. intros e ev Hin Hf.
    repeat (destruct Hin as [<- | Hin]; cbn in Hf; try contradiction);
      try contradiction.
    subst. repeat split; auto; discriminate.
Qed.
End Auth.

(** ** The assignment listing *)

(** The status expression gives what the claim calls the reported status. *)
Lemma submission_status_reported listing st :
  submission_status listing = Ok st -> reported_status listing = Some st.
Proof.
  unfold submission_status, reported_status, existing_submission,
    submission_field, and_then, py_get, py_getitem, py_truthy, py_first.
  destruct listing as [| | | | | d]; try discriminate.
  destruct (assoc "studentSubmissions" d) as [v |]; cbn.
  - destruct v as [| [] | z | [| c s] | [| x l] | [| kv d']]; cbn;
      try (intros [= ?]; subst; reflexivity); try discriminate.
    + destruct (negb (z =? 0)%Z); cbn;
        [discriminate | intros [= ?]; subst; reflexivity].
    + destruct x as [| | | | | dx]; cbn; try discriminate.
      destruct (assoc "state" dx);
        [intros [= ?]; subst; reflexivity | discriminate].
  - intros [= ?]; subst. reflexivity.
Qed.

(** A listing without submissions never makes the status expression fail. *)
Lemma no_submissions_status listing :
  no_submissions listing = true ->
  submission_status listing = Ok (JStr "NOT_SUBMITTED").
Proof.
  unfold no_submissions, submission_status, and_then, py_get, py_truthy.
  destruct listing as [| | | | | d]; try discriminate.
  destruct (assoc "studentSubmissions" d) as [[| | | | [| x l] |] |];
    try discriminate; reflexivity.
Qed.

(** The due expression on an item whose due date, if any, is a record. *)
Lemma format_due_item repr work s :
  due_of_item repr work = Some s -> format_due repr work = Ok s.
Proof.
  unfold due_of_item, format_due, and_then, py_truthy.
  destruct work as [| | | | | wd]; try discriminate.
  unfold py_get at 1.
  destruct (assoc "dueDate" wd) as [[| | | | | [| kv d]] |]; cbn;
    try discriminate; try (intros [= ?]; subst; reflexivity).
  intros [= ?]; subst. unfold py_get, due_of_record, due_component. cbn.
  destruct (assoc "year" (kv :: d)), (assoc "month" (kv :: d)),
    (assoc "day" (kv :: d)); reflexivity.
Qed.

Lemma entry_of_more repr course_id evs evs' work entry :
  (forall e, In e evs -> In e evs') ->
  entry_of repr course_id evs work entry ->
  entry_of repr course_id evs' work entry.
Proof.
  intros Hsub (id & title & listing & status & due & H1 & H2 & H3 & H4).
  exists id, title, listing, status, due. intuition.
Qed.

Section Assignments.
Context {R : Type} (ext : externals R).

(** One turn of the loop that succeeds made one call, the submission
    query for the item, and built the entry from its answer. *)
Lemma assignment_entry_ok course_id work w entry :
  result (assignment_entry ext course_id work w) = Ok entry ->
  entry_of (repr_container ext) course_id
    (events (assignment_entry ext course_id work w)) work entry.
Proof.
  unfold assignment_entry, bind, lift, call_execute, external, ret.
  destruct (py_getitem work "id") as [id |] eqn:Hid; cbn; [| discriminate].
  destruct (execute ext (list_submissions course_id id) (remote w))
    as [[listing | e] r']; cbn; [| discriminate].
  destruct (submission_status listing) as [status |] eqn:Hst; cbn;
    [| discriminate].
  destruct (format_due (repr_container ext) work) as [due |] eqn:Hdue; cbn;
    [| discriminate].
  destruct (py_getitem work "title") as [title |] eqn:Htitle; cbn;
    [| discriminate].
  intros [= <-].
  exists id, title, listing, status, due. cbn. auto 10.
Qed.

(** The loop reports the items in order, one entry each. *)
Lemma assignments_loop_ok course_id works :
  forall acc w l,
    result (assignments_loop ext course_id works acc w) = Ok l ->
    exists entries,
      l = acc ++ entries /\
      Forall2
        (entry_of (repr_container ext) course_id
           (events (assignments_loop ext course_id works acc w)))
        works entries.
Proof.
  induction works as [| work rest IH]; intros acc w l; cbn.
  - intros [= <-]. exists []. split; [now rewrite app_nil_r | constructor].
  - intros H.
    destruct (bind_inv_ok _ _ _ _ H) as (entry & w1 & t1 & Hentry & Hrun).
    rewrite Hrun in *. rewrite result_after_events in H.
    rewrite events_after_events.
    destruct (IH _ _ _ H) as (entries & -> & Hall).
    exists (entry :: entries). split; [now rewrite <- app_assoc |].
    constructor.
    + pose proof (assignment_entry_ok course_id work w entry) as He.
      rewrite Hentry in He. cbn in He.
      eapply entry_of_more; [| apply He; reflexivity].
      intros e Hin. apply in_or_app. now left.
    + eapply Forall2_impl; [exact Hall |].
      intros x y Hxy. eapply entry_of_more; [| exact Hxy].
      intros e Hin. apply in_or_app. now right.
Qed.

(** A response of the handler lists, in order, one entry for each
    coursework item the service listed for the course. *)
Lemma assignments_ok course_id w resp :
  result (assignments ext course_id w) = Ok resp ->
  exists coursework works entries,
    resp = Jsonify 200 (JDict [("assignments", JList entries)]) /\
    In (Execute (list_coursework course_id) (Ok coursework))
       (events (assignments ext course_id w)) /\
    listed_works coursework = Ok works /\
    Forall2
      (entry_of (repr_container ext) course_id
         (events (assignments ext course_id w)))
      works entries.
Proof.
  unfold assignments. intros H.
  next_bind H creds w1 t1 Hauth.
  next_bind H u w2 t2 Hbuild.
  next_bind H coursework w3 t3 Hlist.
  next_bind H items w4 t4 Hitems.
  next_bind H works w5 t5 Hworks.
  next_bind H entries w6 t6 Hloop.
  apply external_inv in Hlist. destruct Hlist as (_ & -> & _).
  apply lift_inv in Hitems. destruct Hitems as (Hitems & -> & ->).
  apply lift_inv in Hworks. destruct Hworks as (Hworks & -> & ->).
  cbn in H. injection H as <-.
  pose proof (assignments_loop_ok course_id works [] w3 entries) as Hl.
  rewrite Hloop in Hl. cbn in Hl.
  destruct (Hl eq_refl) as (entries' & -> & Hall).
  exists coursework, works, entries'. repeat split.
  - rewrite !in_app_iff. cbn. auto 10.
  - unfold listed_works. rewrite <- Hitems. cbn. now rewrite <- Hworks.
  - eapply Forall2_impl; [exact Hall |].
    intros x y Hxy. eapply entry_of_more; [| exact Hxy].
    intros e Hin. rewrite !in_app_iff. auto 10.
Qed.

(** C8.  In a response of GET /assignments/{course_id}, the entry of each
    listed coursework item carries the status read off the answer to the
    submission query made for that item: the state of the first submission
    when there is one, "NOT_SUBMITTED" when there is none.  And an item
    whose query answers without submissions is no error: the loop body
    returns its entry, with status "NOT_SUBMITTED". *)
Theorem status_of_listed_item course_id w :
  (forall resp,
      result (assignments ext course_id w) = Ok resp ->
      exists coursework works entries,
        resp = Jsonify 200 (JDict [("assignments", JList entries)]) /\
        In (Execute (list_coursework course_id) (Ok coursework))
           (events (assignments ext course_id w)) /\
        listed_works coursework = Ok works /\
        Forall2
          (fun work entry =>
             exists id listing status,
               py_getitem work "id" = Ok id /\
               In (Execute (list_submissions course_id id) (Ok listing))
                  (events (assignments ext course_id w)) /\
               reported_status listing = Some status /\
               submission_field "status" entry = Some status)
          works entries) /\
  (forall work id title due listing r',
      py_getitem work "id" = Ok id ->
      py_getitem work "title" = Ok title ->
      format_due (repr_container ext) work = Ok due ->
      execute ext (list_submissions course_id id) (remote w)
        = (Ok listing, r') ->
      no_submissions listing = true ->
      result (assignment_entry ext course_id work w) =
        Ok (JDict [("id", id); ("title", title); ("due", JStr due);
                   ("status", JStr "NOT_SUBMITTED")])).
Proof.
  split.
  - intros resp H.
    destruct (assignments_ok course_id w resp H)
      as (coursework & works & entries & -> & Hin & Hworks & Hall).
    exists coursework, works, entries. repeat split; auto.
    eapply Forall2_impl; [exact Hall |].
    intros work entry
      (id & title & listing & status & due & H1 & H2 & H3 & H4 & H5 & ->).
    exists id, listing, status. repeat split; auto.
    now apply submission_status_reported.
  - intros work id title due listing r' Hid Htitle Hdue Hex Hno.
    unfold assignment_entry, bind, lift, call_execute, external, ret.
    rewrite Hid. cbn. rewrite Hex. cbn.
    rewrite (no_submissions_status listing Hno). cbn.
    rewrite Hdue. cbn. rewrite Htitle. reflexivity.
Qed.

(** C5, as amended.  In a response of GET /assignments/{course_id}, the
    entry of each listed coursework item whose due date, if it has one, is
    a record carries this due string: "No due date" when the item has no
    due-date field or an empty record; otherwise year, month and day joined
    by dashes, each the value the record holds, or "N/A" where the record
    lacks it. *)
Theorem due_of_listed_item course_id w resp :
  result (assignments ext course_id w) = Ok resp ->
  exists coursework works entries,
    resp = Jsonify 200 (JDict [("assignments", JList entries)]) /\
    In (Execute (list_coursework course_id) (Ok coursework))
       (events (assignments ext course_id w)) /\
    listed_works coursework = Ok works /\
    Forall2
      (fun work entry =>
         forall s,
           due_of_item (repr_container ext) work = Some s ->
           submission_field "due" entry = Some (JStr s))
      works entries.
Proof.
  intros H.
  destruct (assignments_ok course_id w resp H)
    as (coursework & works & entries & -> & Hin & Hworks & Hall).
  exists coursework, works, entries. repeat split; auto.
  eapply Forall2_impl; [exact Hall |].
  intros work entry
    (id & title & listing & status & due & H1 & H2 & H3 & H4 & H5 & ->).
  intros s Hs. apply format_due_item in Hs. rewrite Hs in H5.
  injection H5 as <-. reflexivity.
Qed.
End Assignments.

(** ** Submitting *)

Lemma not_execute_not_call m e :
  is_execute e = false -> is_submission_call m e = false.
Proof. now destruct e. Qed.

Lemma no_call_among_others m e (l : list event) :
  Forall (fun ev => is_execute ev = false) l ->
  In e l -> is_submission_call m e = false.
Proof.
  intros Hall Hin. rewrite Forall_forall in Hall.
  apply not_execute_not_call, Hall. now apply list_elem_of_In.
Qed.

Section Submit.
Context {R : Type} (ext : externals R).

Ltac submit_assignment_cases :=
  unfold submit_assignment, bind, lift, raise, call_execute, external, ret;
  repeat (cbn; try split_step).

(** [submit_assignment] starts with the query for the student's
    submissions, asks it only once, and touches no local file. *)
Lemma submit_assignment_head course_id coursework_id file_id name w :
  exists rest,
    events (submit_assignment ext course_id coursework_id file_id name w) =
      Execute (list_submissions course_id (JStr coursework_id))
        (fst (execute ext (list_submissions course_id (JStr coursework_id))
                (remote w)))
        :: rest /\
    Forall (fun e => is_submission_call "list" e = false) rest /\
    scratch
      (after (submit_assignment ext course_id coursework_id file_id name w))
      = scratch w.
Proof.
  submit_assignment_cases; eexists; repeat split; repeat constructor.
Qed.

(** A first submission in state TURNED_IN: the exception of line 223, and
    nothing after the query. *)
Lemma submit_assignment_turned_in course_id coursework_id file_id name w
  listing r' s :
  execute ext (list_submissions course_id (JStr coursework_id)) (remote w)
    = (Ok listing, r') ->
  existing_submission listing = Some s ->
  submission_field "state" s = Some (JStr "TURNED_IN") ->
  submit_assignment ext course_id coursework_id file_id name w =
    Run (Raise (Exn PlainException "Assignment already turned in."))
        (set_remote r' w)
        [Execute (list_submissions course_id (JStr coursework_id))
           (Ok listing)].
Proof.
  intros Hex Hs Hst.
  unfold existing_submission in Hs.
  destruct listing as [| | | | | d]; try discriminate.
  destruct (assoc "studentSubmissions" d) as [[| | | | [| x l] |] |] eqn:Hd;
    try discriminate.
  injection Hs as ->.
  destruct s as [| | | | | ds]; try discriminate. cbn in Hst.
  unfold submit_assignment, bind, lift, raise, call_execute, external.
  rewrite Hex. cbn.
  unfold py_get, py_getitem, py_truthy, py_first, is_str.
  rewrite Hd. cbn. rewrite Hst. reflexivity.
Qed.

(** A run of [submit_assignment] that returns ends with the two calls of
    lines 230-237, the patch and the turn-in, for one and the same
    submission id; nothing before them is a patch or a turn-in. *)
Lemma submit_assignment_ok course_id coursework_id file_id name w :
  result (submit_assignment ext course_id coursework_id file_id name w)
    = Ok tt ->
  exists pre sid r1 r2,
    events (submit_assignment ext course_id coursework_id file_id name w) =
      pre ++
      [Execute (patch_request course_id coursework_id sid file_id name)
         (Ok r1);
       Execute (turnIn_request coursework_id sid) (Ok r2)] /\
    Forall (fun e => is_submission_call "patch" e = false /\
                     is_submission_call "turnIn" e = false) pre.
Proof.
  submit_assignment_cases; intros H; try discriminate H.
  - eexists [_], _, _, _. split; [reflexivity |]. repeat constructor.
  - eexists [_; _], _, _, _. split; [reflexivity |]. repeat constructor.
Qed.

(** The handler up to the [try]: it fails before any call to Classroom or
    Drive, or it has read the three fields, saved the upload, and goes on
    with the [try] statement. *)
Lemma submit_cases req w :
  (exists e,
      result (submit ext req w) = Raise e /\
      Forall (fun ev => is_execute ev = false) (events (submit ext req w)))
  \/
  exists course_id coursework_id file w1 pre,
    lookup_field "course_id" (form req) = Ok course_id /\
    lookup_field "assignment_id" (form req) = Ok coursework_id /\
    lookup_field "file" (files req) = Ok file /\
    Forall (fun ev => is_execute ev = false) pre /\
    submit ext req w =
      after_events (pre ++ [ScratchSave (path_join "uploads" (filename file))])
        (try_except
           (submit_body ext course_id coursework_id file
              (path_join "uploads" (filename file)))
           any_exception submit_failed
           (set_scratch
              (<[path_join "uploads" (filename file) := content file]>
                 (scratch w1)) w1)).
Proof.
  unfold submit.
  pose proof (authenticate_no_execute ext w) as [Ha _].
  destruct (authenticate ext w) as [[creds | e] w1 t1] eqn:Hauth; cbn in Ha.
  2: { left. exists e. rewrite (bind_raise _ _ _ _ _ _ Hauth). cbn. auto. }
  rewrite (bind_ok _ _ _ _ _ _ Hauth).
  pose proof (get_services_no_execute ext creds w1) as [Hb _].
  destruct (get_services ext creds w1) as [[[] | e] w2 t2] eqn:Hbuild;
    cbn in Hb.
  2: { left. exists e. rewrite (bind_raise _ _ _ _ _ _ Hbuild). cbn.
       split; auto. now apply Forall_app. }
  rewrite (bind_ok _ _ _ _ _ _ Hbuild), after_events_app.
  assert (Hab : Forall (fun ev => is_execute ev = false) (t1 ++ t2))
    by now apply Forall_app.
  destruct (lookup_field "course_id" (form req)) as [course_id | e] eqn:H1.
  2: { left. exists e. rewrite (bind_lift_raise _ _ _ _ eq_refl). cbn.
       rewrite app_nil_r. auto. }
  rewrite (bind_lift_ok _ _ _ _ eq_refl).
  destruct (lookup_field "assignment_id" (form req))
    as [coursework_id | e] eqn:H2.
  2: { left. exists e. rewrite (bind_lift_raise _ _ _ _ eq_refl). cbn.
       rewrite app_nil_r. auto. }
  rewrite (bind_lift_ok _ _ _ _ eq_refl).
  destruct (lookup_field "file" (files req)) as [file | e] eqn:H3.
  2: { left. exists e. rewrite (bind_lift_raise _ _ _ _ eq_refl). cbn.
       rewrite app_nil_r. auto. }
  rewrite (bind_lift_ok _ _ _ _ eq_refl).
  right. exists course_id, coursework_id, file, w2, (t1 ++ t2).
  repeat split; auto.
  unfold bind at 1, file_save. cbn. now rewrite after_events_app.
Qed.

(** The body of the [try], with the upload on disk: first the file goes to
    Drive, then, if that gave a file id, the submission and the removal of
    the local file follow. *)
Lemma submit_body_run course_id coursework_id file path w bytes :
  scratch w !! path = Some bytes ->
  exists o r',
    execute ext (create_file (path, bytes)) (remote w) = (o, r') /\
    submit_body ext course_id coursework_id file path w =
      after_events [Execute (create_file (path, bytes)) o]
        (bind (lift (and_then o (fun f => py_get f "id" JNull)))
           (fun file_id =>
              submit_assignment ext course_id coursework_id file_id
                (filename file) ;;;
              os_remove path ;;;
              ret (Jsonify 200 (success_body coursework_id)))
           (set_remote r' w)).
Proof.
  intros Hfile.
  unfold submit_body, upload_file_to_drive, media_file_upload, call_execute,
    external, bind, lift.
  rewrite Hfile. cbn.
  destruct (execute ext (create_file (path, bytes)) (remote w)) as [o r'].
  exists o, r'. split; [reflexivity |].
  destruct o as [f | e]; cbn; [| reflexivity].
  destruct (py_get f "id" JNull) as [file_id | e]; cbn; [| reflexivity].
  destruct (submit_assignment _ _ _ _ _ _) as [[[] | e] w1 t1]; cbn;
    [| reflexivity].
  destruct (os_remove _ _) as [[[] | e] w2 t2]; reflexivity.
Qed.

Lemma os_remove_no_execute path (w : world R) :
  Forall (fun ev => is_execute ev = false) (events (os_remove path w)).
Proof. unfold os_remove. destruct (scratch w !! path); repeat constructor. Qed.

(** C2.  If, while handling POST /submit, the query for the student's
    submissions answers with a first submission in state TURNED_IN, then
    the handler answers with status 500 and the message "Assignment already
    turned in.", no patch and no turn-in is called in the whole run, and
    the query is the last thing the run does. *)
Theorem resubmission_is_refused req w q listing s :
  In (Execute q (Ok listing)) (events (submit ext req w)) ->
  is_submission_call "list" (Execute q (Ok listing)) = true ->
  existing_submission listing = Some s ->
  submission_field "state" s = Some (JStr "TURNED_IN") ->
  result (submit ext req w) =
    Ok (Jsonify 500 (error_body "Assignment already turned in.")) /\
  Forall (fun e => is_submission_call "patch" e = false /\
                   is_submission_call "turnIn" e = false)
    (events (submit ext req w)) /\
  exists pre, events (submit ext req w) = pre ++ [Execute q (Ok listing)].
Proof.
  intros Hin Hlist Hs Hst.
  destruct (submit_cases req w)
    as [(e & Hres & Hev) |
        (course_id & coursework_id & file & w1 & pre & _ & _ & _ & Hpre & Hrun)].
  { rewrite (no_call_among_others _ _ _ Hev Hin) in Hlist. discriminate. }
  rewrite Hrun in *. clear Hrun.
  set (path := path_join "uploads" (filename file)) in *.
  set (w2 := set_scratch _ w1) in *.
  assert (Hsaved : scratch w2 !! path = Some (content file))
    by apply lookup_insert_eq.
  destruct (submit_body_run course_id coursework_id file path w2 _ Hsaved)
    as (o & r' & Hex & Hbody).
  unfold try_except in *. rewrite Hbody in *. clear Hbody.
  set (create := Execute (create_file (path, content file)) o) in *.
  assert (Hcreate : is_submission_call "list" create = false) by reflexivity.
  destruct (and_then o (fun f => py_get f "id" JNull)) as [file_id | e].
  2: { exfalso. cbn in Hin. rewrite !in_app_iff in Hin. cbn in Hin.
       destruct Hin as [[Hin | [Hin | []]] | [Hin | []]];
         try discriminate Hin.
       - rewrite (no_call_among_others _ _ _ Hpre Hin) in Hlist.
         discriminate.
       - rewrite <- Hin, Hcreate in Hlist. discriminate. }
  rewrite (bind_lift_ok _ _ _ _ eq_refl) in *.
  set (w3 := set_remote r' w2) in *.
  destruct (submit_assignment_head course_id coursework_id file_id
              (filename file) w3) as (rest & Hhead & Hrest & _).
  pose proof (submit_assignment_turned_in course_id coursework_id file_id
                (filename file) w3 listing) as Hturned.
  pose proof (os_remove_no_execute path) as Hrm.
  unfold bind in *.
  assert (Hit : fst (execute ext
                       (list_submissions course_id (JStr coursework_id))
                       (remote w3)) = Ok listing /\
                q = list_submissions course_id (JStr coursework_id)).
  { destruct (submit_assignment ext course_id coursework_id file_id
                (filename file) w3) as [[[] | e] w4 t4]; cbn in Hhead;
      subst t4; [specialize (Hrm w4); destruct (os_remove path w4)
                   as [[[] | e] w5 t5] |];
      cbn in Hin; rewrite ?in_app_iff in Hin; cbn in Hin;
      rewrite ?in_app_iff in Hin; cbn in Hin, Hrm.
    all: repeat match goal with
                | H : _ \/ _ |- _ => destruct H as [H | H]
                end.
    all: first
           [ contradiction
           | match goal with
             | H : In _ ?t,
               H' : Forall (fun ev => is_execute ev = false) ?t |- _ =>
                 rewrite (no_call_among_others _ _ _ H' H) in Hlist
             | H : In _ ?t,
               H' : Forall (fun e => is_submission_call "list" e = false) ?t
               |- _ =>
                 rewrite Forall_forall in H';
                 apply list_elem_of_In, H' in H; congruence
             | H : ?c = _, H' : is_submission_call "list" ?c = false |- _ =>
                 rewrite <- H, H' in Hlist
             | H : ScratchSave _ = _ |- _ => discriminate H
             | H : ScratchRemove _ = _ |- _ => discriminate H
             end; discriminate
           | match goal with
             | H : Execute _ _ = Execute _ _ |- _ =>
                 injection H; intros; subst q; split;
                 [assumption | reflexivity]
             end ]. }
  destruct Hit as [Hq ->].
  destruct (execute ext _ (remote w3)) as [o' r''] eqn:Hex'.
  cbn in Hq. subst o'.
  rewrite (Hturned r'' s eq_refl Hs Hst) in *. cbn.
  repeat split.
  - apply Forall_app. split.
    + apply Forall_app. split; [| repeat constructor].
      eapply Forall_impl; [exact Hpre |].
      intros x Hx. split; now apply not_execute_not_call.
    + repeat constructor.
  - exists (pre ++ [ScratchSave path; create]).
    now rewrite <- !app_assoc.
Qed.

(** X22.  What becomes of the saved upload: when the handler answers, the file
    is gone if the answer is the success message, and it is still in the
    scratch directory, as saved, if the answer is an error. *)
Lemma upload_removed_only_on_success req w file resp :
  lookup_field "file" (files req) = Ok file ->
  result (submit ext req w) = Ok resp ->
  let saved :=
    scratch (after (submit ext req w))
      !! path_join "uploads" (filename file) in
  (exists body, resp = Jsonify 200 body /\ saved = None) \/
  (exists body, resp = Jsonify 500 body /\ saved = Some (content file)).
Proof.
  intros Hfile Hres.
  destruct (submit_cases req w)
    as [(e & Hraise & _) |
        (course_id & coursework_id & file' & w1 & pre & _ & _ & Hfile'
           & _ & Hrun)].
  { rewrite Hraise in Hres. discriminate. }
  rewrite Hfile in Hfile'. injection Hfile' as <-.
  rewrite Hrun in *. clear Hrun. cbv zeta.
  rewrite result_after_events in Hres. rewrite after_after_events.
  set (path := path_join "uploads" (filename file)) in *.
  set (w2 := set_scratch _ w1) in *.
  assert (Hsaved : scratch w2 !! path = Some (content file))
    by apply lookup_insert_eq.
  destruct (submit_body_run course_id coursework_id file path w2 _ Hsaved)
    as (o & r' & Hex & Hbody).
  unfold try_except in *. rewrite Hbody in *. clear Hbody.
  destruct (and_then o (fun f => py_get f "id" JNull)) as [file_id | e].
  2: { cbn in *. right. injection Hres as <-. eauto. }
  rewrite (bind_lift_ok _ _ _ _ eq_refl) in *.
  set (w3 := set_remote r' w2) in *.
  destruct (submit_assignment_head course_id coursework_id file_id
              (filename file) w3) as (rest & _ & _ & Hscratch).
  unfold bind, os_remove in *.
  destruct (submit_assignment ext course_id coursework_id file_id
              (filename file) w3) as [[[] | e] w4 t4]; cbn in Hscratch.
  - assert (Hstill : scratch w4 !! path = Some (content file))
      by now rewrite Hscratch.
    rewrite Hstill in *. cbn in *. left. injection Hres as <-.
    eexists. split; [reflexivity |]. apply lookup_delete_eq.
  - cbn in *. right. injection Hres as <-.
    eexists. split; [reflexivity |]. now rewrite Hscratch.
Qed.
End Submit.

(** ** The program on concrete requests *)

Import Standin.

(** C1, at a POST /submit for coursework w1 of course c1 by a student whose
    submission s1 is in state CREATED.  The attachment is added by a patch
    that names course c1, coursework w1 and submission s1; the turn-in that
    follows names the coursework id w1 as the course and gives no coursework
    id.  The service refuses it, the handler answers 500, and the submission
    is left with the new attachment in state CREATED, not TURNED_IN. *)
Theorem turn_in_is_misaddressed :
  let r := submit ext post assigned in
  In (Execute (patch_request "c1" "w1" (JStr "s1") (JStr "drive-file-1")
                 "essay.txt")
        (Ok (submission_json (her_submission "CREATED"))))
     (events r) /\
  last (events r) =
    Some (Execute
            (classroom studentSubmissions "turnIn"
               [("courseId", JStr "w1"); ("id", JStr "s1")])
            (Raise (Exn TypeError "Missing required parameter courseWorkId")))
  /\
  result r =
    Ok (Jsonify 500 (error_body "Missing required parameter courseWorkId")) /\
  submissions (remote (after r)) =
    [Submission "c1" "w1" "s1" "CREATED"
       [attachment (JStr "drive-file-1") "essay.txt"]].
Proof. vm_compute. repeat split; auto 10. Qed.

(** C4, at a POST /submit for an assignment that is already turned in: the
    handler answers 500 and the upload is still in the scratch directory. *)
Theorem upload_stays_after_failed_submit :
  let r := submit ext post handed_in in
  result r = Ok (Jsonify 500 (error_body "Assignment already turned in.")) /\
  scratch (after r) !! "uploads/essay.txt" = Some "My essay.".
Proof. vm_compute. auto. Qed.

(** C5 as stated fails on an item whose due-date record is empty: the claim
    gives it the three placeholders, the handler reports "No due date". *)
Lemma empty_due_record_is_no_due_date :
  due_as_claimed (repr_container ext) quiz_work = Some "N/A-N/A-N/A" /\
  result (assignments ext "c1" two_items) = Ok two_items_response /\
  ~ (forall resp,
        result (assignments ext "c1" two_items) = Ok resp ->
        exists entries,
          resp = Jsonify 200 (JDict [("assignments", JList entries)]) /\
          Forall2
            (fun work entry =>
               forall s,
                 due_as_claimed (repr_container ext) work = Some s ->
                 submission_field "due" entry = Some (JStr s))
            [essay_work; quiz_work] entries).
Proof.
  split; [reflexivity |]. split; [vm_compute; reflexivity |].
  intros H.
  destruct (H two_items_response) as (entries & Hresp & Hall);
    [vm_compute; reflexivity |].
  injection Hresp as <-.
  inversion Hall as [| ? ? ? ? _ Hrest]; subst.
  inversion Hrest as [| ? ? ? ? Hquiz _]; subst.
  specialize (Hquiz "N/A-N/A-N/A" eq_refl). vm_compute in Hquiz.
  discriminate Hquiz.
Qed.

(** *** The theorems at work *)

Lemma valid_credential_returned_as_is_witness :
  token_file assigned = Some (JsonDoc (store alice)) /\
  valid alice = true /\
  result (authenticate ext assigned) = Ok (Some alice) /\
  events (authenticate ext assigned) = [].
Proof.
  split; [reflexivity |]. split; [reflexivity |].
  destruct (valid_credential_returned_as_is ext assigned (store alice) alice)
    as (H1 & H2 & _); auto; reflexivity.
Defined.


Lemma auth_removes_token_before_consent_witness :
  In (FlowRun None (Raise access_denied)) (events (auth ext declining)) /\
  result (auth ext declining) =
    Ok (Jsonify 500 (error_body "Authentication failed: access_denied")) /\
  token_file (after (auth ext declining)) = None.
Proof.
  assert (Hin : In (FlowRun None (Raise access_denied))
                  (events (auth ext declining)))
    by (vm_compute; auto).
  destruct (auth_removes_token_before_consent ext declining
              (JsonDoc (JDict [])) (JsonDoc (store alice)) eq_refl eq_refl)
    as [_ H].
  destruct (H access_denied _ Hin eq_refl) as (H1 & H2 & _). auto.
Defined.

Lemma resubmission_is_refused_witness :
  let listing :=
    JDict [("studentSubmissions",
            JList [submission_json (her_submission "TURNED_IN")])] in
  In (Execute (list_submissions "c1" (JStr "w1")) (Ok listing))
     (events (submit ext post handed_in)) /\
  result (submit ext post handed_in) =
    Ok (Jsonify 500 (error_body "Assignment already turned in.")) /\
  Forall (fun e => is_submission_call "patch" e = false /\
                   is_submission_call "turnIn" e = false)
    (events (submit ext post handed_in)).
Proof.
  intros listing.
  assert (Hin : In (Execute (list_submissions "c1" (JStr "w1")) (Ok listing))
                  (events (submit ext post handed_in)))
    by (vm_compute; auto 10).
  destruct (resubmission_is_refused ext post handed_in _ listing
              (submission_json (her_submission "TURNED_IN"))
              Hin eq_refl eq_refl eq_refl) as (H1 & H2 & _).
  auto.
Defined.

Lemma status_of_listed_item_witness :
  result (assignment_entry ext "c1" quiz_work two_items) =
    Ok (JDict [("id", JStr "w2"); ("title", JStr "Quiz");
               ("due", JStr "No due date");
               ("status", JStr "NOT_SUBMITTED")]) /\
  result (assignments ext "c1" two_items) = Ok two_items_response /\
  exists coursework works entries,
    two_items_response =
      Jsonify 200 (JDict [("assignments", JList entries)]) /\
    In (Execute (list_coursework "c1") (Ok coursework))
       (events (assignments ext "c1" two_items)) /\
    listed_works coursework = Ok works /\
    Forall2
      (fun work entry =>
         exists id listing status,
           py_getitem work "id" = Ok id /\
           In (Execute (list_submissions "c1" id) (Ok listing))
              (events (assignments ext "c1" two_items)) /\
           reported_status listing = Some status /\
           submission_field "status" entry = Some status)
      works entries.
Proof.
  assert (H : result (assignments ext "c1" two_items) = Ok two_items_response)
    by (vm_compute; reflexivity).
  split; [| split; [exact H |]].
  - apply (proj2 (status_of_listed_item ext "c1" two_items) quiz_work
             (JStr "w2") (JStr "Quiz") "No due date" (JDict [])
             (remote two_items)); reflexivity.
  - exact (proj1 (status_of_listed_item ext "c1" two_items) _ H).
Defined.

Lemma due_of_listed_item_witness :
  result (assignments ext "c1" two_items) = Ok two_items_response /\
  exists coursework works entries,
    two_items_response =
      Jsonify 200 (JDict [("assignments", JList entries)]) /\
    In (Execute (list_coursework "c1") (Ok coursework))
       (events (assignments ext "c1" two_items)) /\
    listed_works coursework = Ok works /\
    Forall2
      (fun work entry =>
         forall s,
           due_of_item (repr_container ext) work = Some s ->
           submission_field "due" entry = Some (JStr s))
      works entries.
Proof.
  assert (H : result (assignments ext "c1" two_items) = Ok two_items_response)
    by (vm_compute; reflexivity).
  split; [exact H |].
  exact (due_of_listed_item ext "c1" two_items _ H).
Defined.

(** * Further properties *)

(** ** More on the credential routine *)

Section AuthenticateFurther.
Context {R : Type} (ext : externals R).

Ltac obtain_split :=
  unfold obtain_credentials, run_consent, bind, call_refresh, flow_create,
    flow_url, flow_run, external, library, write_token, ret;
  repeat (cbn; try split_step).

(** A credential comes out of the loader only from a JSON document that
    passed the membership test and that the library could read; the loader
    then has touched nothing. *)
Lemma load_some w c w1 t1 :
  load_credentials ext w = Run (Ok (Some c)) w1 t1 ->
  w1 = w /\ t1 = [] /\
  exists j,
    token_file w = Some (JsonDoc j) /\
    py_contains "refresh_token" j = Ok true /\
    from_authorized_user_info ext j = Ok c.
Proof.
  unfold load_credentials, bind, try_except, token_exists, load_token_data,
    unlink_token, lift, ret.
  destruct (token_file w) as [[| | j] |] eqn:Hf; cbn; rewrite ?Hf; cbn;
    try discriminate.
  destruct (py_contains "refresh_token" j) as [[|] | e] eqn:Hin; cbn;
    rewrite ?Hf; cbn; try discriminate.
  - destruct (from_authorized_user_info ext j) as [c' | e] eqn:Hc; cbn.
    + intros [= -> <- <-]. eauto 10.
    + destruct (is_decode_error e); cbn; rewrite ?Hf; cbn; discriminate.
  - destruct (is_decode_error e); cbn; rewrite ?Hf; cbn; discriminate.
Qed.

Lemma obtain_exclusive creds w c r :
  In (Refresh c r) (events (obtain_credentials ext creds w)) ->
  Forall (fun e => is_consent e = false)
    (events (obtain_credentials ext creds w)).
Proof.
  destruct creds as [c0 |]; obtain_split; intros Hin;
    repeat (destruct Hin as [Hin | Hin]; try discriminate Hin);
    try contradiction; repeat constructor.
Qed.

(** X3.  No run of [authenticate] both refreshes and takes a step of the
    consent flow: once a refresh was tried, its failure is final. *)
Theorem refresh_excludes_consent w c r :
  In (Refresh c r) (events (authenticate ext w)) ->
  Forall (fun e => is_consent e = false) (events (authenticate ext w)).
Proof.
  intros Hin.
  destruct (authenticate_cases ext w)
    as [[e H] | (creds & w1 & t1 & Ht & _ & H)].
  - rewrite H. constructor.
  - rewrite H in *. rewrite events_after_events in *.
    apply Forall_app. split.
    + destruct Ht as [-> | ->]; repeat constructor.
    + apply in_app_or in Hin. destruct Hin as [Hin | Hin].
      * destruct Ht as [-> | ->]; cbn in Hin; [contradiction |].
        destruct Hin as [Hin | []]. discriminate Hin.
      * eapply obtain_exclusive. exact Hin.
Qed.

Lemma obtain_result creds w creds' :
  result (obtain_credentials ext creds w) = Ok creds' ->
  exists c,
    creds' = Some c /\
    (valid c = true ->
     (creds = Some c /\ after (obtain_credentials ext creds w) = w) \/
     token_file (after (obtain_credentials ext creds w)) =
       Some (JsonDoc (to_json ext c))).
Proof.
  destruct creds as [c0 |]; obtain_split; intros [= <-];
    eexists; (split; [reflexivity |]); intros Hv; auto; congruence.
Qed.

(** X4.  When [authenticate] returns, it returns a credential, never
    [None]; and if that credential is valid, the token file vouches for it:
    either it was just written there, or it is the one that was read from
    the file, which is untouched. *)
Theorem returned_credential_is_stored w creds :
  result (authenticate ext w) = Ok creds ->
  exists c,
    creds = Some c /\
    (valid c = true ->
     token_file (after (authenticate ext w)) = Some (JsonDoc (to_json ext c))
     \/
     (after (authenticate ext w) = w /\
      exists j,
        token_file w = Some (JsonDoc j) /\
        from_authorized_user_info ext j = Ok c)).
Proof.
  unfold authenticate. intros H.
  destruct (bind_inv_ok _ _ _ _ H) as (loaded & w1 & t1 & Hload & Hrun).
  rewrite Hrun in *. rewrite result_after_events in H.
  rewrite after_after_events.
  destruct (obtain_result loaded w1 creds H) as (c & -> & Hc).
  exists c. split; [reflexivity |]. intros Hv.
  destruct (Hc Hv) as [[-> Hafter] | Hfile]; [| now left].
  right. destruct (load_some w c w1 t1 Hload) as (-> & -> & j & Hj & _ & Hcj).
  split; [exact Hafter | eauto].
Qed.

(** X5.  A token file that cannot be decoded, or that holds a JSON object
    without the key refresh_token, is removed, and the consent flow starts
    right after: no refresh is tried. *)
Theorem unusable_token_file_leads_to_consent w t :
  token_file w = Some t ->
  (t = NotUtf8 \/ t = NotJson \/
   exists d, t = JsonDoc (JDict d) /\ assoc "refresh_token" d = None) ->
  exists rest,
    events (authenticate ext w) =
      TokenUnlink
        :: FlowCreate (from_client_secrets_file ext (credentials_file w))
        :: rest.
Proof.
  intros Hf Ht.
  assert (Hload : load_credentials ext w =
                    Run (Ok None) (set_token None w) [TokenUnlink]).
  { destruct Ht as [-> | [-> | (d & -> & Hd)]].
    - eapply load_undecodable; eauto.
    - eapply load_undecodable; eauto.
    - eapply load_object_without_refresh_token; eauto. }
  rewrite (authenticate_after_load ext w _ _ _ Hload), events_after_events.
  obtain_split; eauto.
Qed.

(** X6.  The first sign-in: with no token file, a client configuration the
    library accepts and a consent flow that ends with a valid credential,
    [authenticate] takes the three steps of the flow with the prompt of line
    94, writes the credential to the token file and returns it. *)
Theorem first_sign_in w url r1 c r2 :
  token_file w = None ->
  from_client_secrets_file ext (credentials_file w) = Ok tt ->
  authorization_url ext (remote w) = (Ok url, r1) ->
  run_local_server ext (Some AUTH_PROMPT) r1 = (Ok c, r2) ->
  valid c = true ->
  authenticate ext w =
    Run (Ok (Some c))
        (World (Some (JsonDoc (to_json ext c))) (credentials_file w)
           (scratch w) r2)
        [FlowCreate (Ok tt); FlowUrl (Ok url);
         FlowRun (Some AUTH_PROMPT) (Ok c); TokenWrite c].
Proof.
  intros Hf Hcfg Hurl Hrun Hv.
  rewrite (authenticate_after_load ext w _ _ _ (load_missing ext w Hf)).
  unfold obtain_credentials, run_consent, bind, flow_create, flow_url,
    flow_run, external, library, write_token, ret.
  run_with (rewrite ?Hcfg, ?Hurl, ?Hrun, ?Hv). reflexivity.
Qed.

(** X7.  A token file whose JSON passes the membership test but which the
    library refuses to read (say, for a missing client id) is not healed:
    the library's exception leaves [authenticate] as it is, the file stays
    and nothing else is done. *)
Theorem unreadable_credential_propagates w j e :
  token_file w = Some (JsonDoc j) ->
  py_contains "refresh_token" j = Ok true ->
  from_authorized_user_info ext j = Raise e ->
  is_decode_error e = false ->
  authenticate ext w = Run (Raise e) w [].
Proof.
  intros Hf Hin Hc He.
  unfold authenticate, load_credentials, bind, try_except, token_exists,
    load_token_data, lift.
  run_with (rewrite ?Hf, ?Hin, ?Hc, ?He). reflexivity.
Qed.

(** X8.  A stored credential that is not valid and is either not expired
    or without a usable refresh token is not refreshed: the consent flow
    starts at once. *)
Theorem no_refresh_without_expiry_and_token w j c :
  token_file w = Some (JsonDoc j) ->
  py_contains "refresh_token" j = Ok true ->
  from_authorized_user_info ext j = Ok c ->
  valid c = false ->
  expired c = false \/ has_refresh_token c = false ->
  (exists rest,
      events (authenticate ext w) =
        FlowCreate (from_client_secrets_file ext (credentials_file w)) :: rest)
  /\ forall c' r, ~ In (Refresh c' r) (events (authenticate ext w)).
Proof.
  intros Hf Hin Hc Hv Hno.
  rewrite (authenticate_after_load ext w (Some c) w []
             (load_readable ext w j c Hf Hin Hc)).
  assert (Hb : expired c && has_refresh_token c = false).
  { destruct Hno as [-> | ->]; [reflexivity | apply andb_false_r]. }
  unfold obtain_credentials, run_consent, bind, flow_create, flow_url,
    flow_run, external, library, write_token, ret.
  cbn. rewrite Hv. cbn. rewrite Hb.
  repeat (cbn; try split_step); split; eauto; intros c' r' Hin';
    repeat (destruct Hin' as [Hin' | Hin']; try discriminate Hin');
    contradiction.
Qed.

(** X9.  A refresh that yields a valid credential: the new credential is
    written to the token file and returned, in two steps. *)
Theorem refreshed_credential_is_stored w j c c' r' :
  token_file w = Some (JsonDoc j) ->
  py_contains "refresh_token" j = Ok true ->
  from_authorized_user_info ext j = Ok c ->
  expired c = true ->
  has_refresh_token c = true ->
  refresh ext c (remote w) = (Ok c', r') ->
  valid c' = true ->
  authenticate ext w =
    Run (Ok (Some c'))
        (World (Some (JsonDoc (to_json ext c'))) (credentials_file w)
           (scratch w) r')
        [Refresh c (Ok c'); TokenWrite c'].
Proof.
  intros Hf Hin Hc He Hr Hrefresh Hv'.
  rewrite (authenticate_after_load ext w (Some c) w []
             (load_readable ext w j c Hf Hin Hc)).
  assert (Hv : valid c = false).
  { unfold valid. rewrite He. now rewrite andb_false_r. }
  unfold obtain_credentials, bind, call_refresh, external, write_token, ret.
  run_with (rewrite ?Hv, ?He, ?Hr, ?Hrefresh, ?Hv'). reflexivity.
Qed.
End AuthenticateFurther.

(** ** More on GET /auth *)

Section AuthFurther.
Context {R : Type} (ext : externals R).

(** X1.  Without the client configuration [auth] answers 500 and stops
    there: the token file is not removed and no flow is started. *)
Theorem auth_without_client_configuration w :
  credentials_file w = None ->
  auth ext w =
    Run (Ok (Jsonify 500 (error_body "credentials.json not found"))) w [].
Proof.
  intros Hc. unfold auth, bind, credentials_exist.
  run_with (rewrite ?Hc). reflexivity.
Qed.

(** X2.  When the flow goes through, [auth] stores the credential it got,
    whether or not it is valid, over whatever was stored before, and
    redirects to the course list.  No authorization URL is asked for and no
    prompt is given, unlike in [authenticate]. *)
Theorem auth_stores_what_the_flow_returns w cf c r' :
  credentials_file w = Some cf ->
  from_client_secrets_file ext (Some cf) = Ok tt ->
  run_local_server ext None (remote w) = (Ok c, r') ->
  result (auth ext w) = Ok (RedirectTo "courses") /\
  after (auth ext w) =
    World (Some (JsonDoc (to_json ext c))) (Some cf) (scratch w) r' /\
  events (auth ext w) =
    match token_file w with Some _ => [TokenUnlink] | None => [] end
    ++ [FlowCreate (Ok tt); FlowRun None (Ok c); TokenWrite c].
Proof.
  intros Hc Hcfg Hrun.
  unfold auth, bind, try_except, credentials_exist, token_exists, unlink_token,
    flow_create, flow_run, library, external, write_token, ret.
  destruct (token_file w) as [t |] eqn:Ht;
    run_with (rewrite ?Hc, ?Ht, ?Hcfg, ?Hrun); repeat split;
    unfold set_token, set_remote; cbn; now rewrite ?Hc.
Qed.
End AuthFurther.

(** ** The course list *)

Lemma course_entries_ok items entries :
  course_entries items = Ok entries ->
  Forall2
    (fun course entry =>
       exists id name,
         py_getitem course "id" = Ok id /\
         py_getitem course "name" = Ok name /\
         entry = JDict [("id", id); ("name", name)])
    items entries.
Proof.
  revert entries. induction items as [| course rest IH]; intros entries; cbn.
  - intros [= <-]. constructor.
  - unfold course_entry, and_then.
    destruct (py_getitem course "id") as [id |] eqn:Hid; [| discriminate].
    destruct (py_getitem course "name") as [name |] eqn:Hname;
      [| discriminate].
    destruct (course_entries rest) as [es |]; [| discriminate].
    intros [= <-]. constructor; [exists id, name; auto | now apply IH].
Qed.

Section Courses.
Context {R : Type} (ext : externals R).

(** X10.  A response of GET /courses lists, in the order of the service's
    answer, one entry per course with exactly its id and its name; and the
    run has made one call to Classroom, the course listing, and none to
    Drive: a further page of courses is never asked for. *)
Theorem courses_lists_id_and_name w resp :
  result (courses ext w) = Ok resp ->
  exists answer found items entries,
    calls (events (courses ext w)) = [Execute list_courses (Ok answer)] /\
    py_get answer "courses" (JList []) = Ok found /\
    py_iter found = Ok items /\
    resp = Jsonify 200 (JDict [("courses", JList entries)]) /\
    Forall2
      (fun course entry =>
         exists id name,
           py_getitem course "id" = Ok id /\
           py_getitem course "name" = Ok name /\
           entry = JDict [("id", id); ("name", name)])
      items entries.
Proof.
  unfold courses. intros H.
  pose proof (authenticate_no_execute ext w) as [Ha _].
  next_bind H creds w1 t1 Hauth. rewrite Hauth in Ha. cbn in Ha.
  pose proof (get_services_no_execute ext creds w1) as [Hb _].
  next_bind H u w2 t2 Hbuild. rewrite Hbuild in Hb. cbn in Hb.
  next_bind H answer w3 t3 Hlist.
  next_bind H found w4 t4 Hfound.
  next_bind H items w5 t5 Hitems.
  next_bind H entries w6 t6 Hentries.
  apply external_inv in Hlist. destruct Hlist as (_ & -> & _).
  apply lift_inv in Hfound. destruct Hfound as (Hfound & -> & ->).
  apply lift_inv in Hitems. destruct Hitems as (Hitems & -> & ->).
  apply lift_inv in Hentries. destruct Hentries as (Hentries & -> & ->).
  cbn in H. injection H as <-.
  exists answer, found, items, entries. repeat split; auto.
  - unfold calls. rewrite !List.filter_app. cbn.
    assert (Hnone : forall l,
               Forall (fun e => is_execute e = false) l ->
               List.filter is_execute l = []).
    { induction 1 as [| e l He _ IH]; cbn; [reflexivity |]. now rewrite He. }
    now rewrite (Hnone _ Ha), (Hnone _ Hb).
  - now apply course_entries_ok.
Qed.
End Courses.

(** ** The diagnostic endpoint *)

Section CheckRedirectUri.
Context {R : Type} (ext : externals R).

(** X11.  [check_redirect_uri] always answers, and always with status 200,
    also when the client configuration is missing or unreadable; it changes
    nothing and calls nothing. *)
Theorem check_redirect_uri_is_harmless (w : world R) :
  exists body,
    check_redirect_uri w = Run (Ok (Jsonify 200 body)) w [].
Proof.
  unfold check_redirect_uri, bind, try_except, credentials_exist,
    load_credentials_data, lift, ret.
  destruct (credentials_file w) as [[| | j] |] eqn:Hc; cbn; rewrite ?Hc; cbn;
    eauto.
  destruct (py_get j "web" (JDict [])) as [web | e]; cbn; eauto.
  destruct (py_get web "redirect_uris" (JList [])) as [uris | e]; cbn; eauto.
Qed.

(** X12.  For a client configuration that is a JSON object, the report
    holds the redirect URIs of its web section, and the empty list when the
    object has no web section or the section no redirect URIs (as for a
    configuration of the installed kind): a missing key is no error. *)
Theorem check_redirect_uri_reports_web_section (w : world R) d :
  credentials_file w = Some (JsonDoc (JDict d)) ->
  match assoc "web" d with
  | None => True
  | Some web => exists dw, web = JDict dw
  end ->
  result (check_redirect_uri w) =
    Ok (Jsonify 200
          (redirect_report
             (match assoc "web" d with
              | Some (JDict dw) => default (JList []) (assoc "redirect_uris" dw)
              | _ => JList []
              end))).
Proof.
  intros Hc Hweb.
  unfold check_redirect_uri, bind, try_except, credentials_exist,
    load_credentials_data, lift, ret, py_get.
  run_with (rewrite ?Hc).
  destruct (assoc "web" d) as [web |]; cbn; [| reflexivity].
  destruct Hweb as [dw ->]. reflexivity.
Qed.
End CheckRedirectUri.

(** ** More on submitting *)

Lemma no_calls (l : list event) :
  Forall (fun e => is_execute e = false) l -> calls l = [].
Proof.
  unfold calls. induction 1 as [| e l He _ IH]; cbn; [reflexivity |].
  now rewrite He.
Qed.

Lemma calls_app (l l' : list event) : calls (l ++ l') = calls l ++ calls l'.
Proof. apply List.filter_app. Qed.

Lemma no_submissions_falsy listing :
  no_submissions listing = true ->
  exists subs,
    py_get listing "studentSubmissions" JNull = Ok subs /\
    py_truthy subs = false.
Proof.
  unfold no_submissions, py_get.
  destruct listing as [| | | | | d]; try discriminate.
  destruct (assoc "studentSubmissions" d) as [[| | | | [| x l] |] |];
    try discriminate; intros _; eexists; split; reflexivity.
Qed.

Section SubmitFurther.
Context {R : Type} (ext : externals R).

(** X13.  A POST /submit that lacks one of the fields course_id,
    assignment_id and file never gets an answer from the handler: it fails
    before anything is saved in the scratch directory and before any call to
    Classroom or Drive. *)
Theorem incomplete_request_is_rejected req w :
  (exists e,
      lookup_field "course_id" (form req) = Raise e \/
      lookup_field "assignment_id" (form req) = Raise e \/
      lookup_field "file" (files req) = Raise e) ->
  (exists e, result (submit ext req w) = Raise e) /\
  calls (events (submit ext req w)) = [] /\
  scratch (after (submit ext req w)) = scratch w.
Proof.
  intros (e0 & Hmiss). unfold submit.
  pose proof (authenticate_no_execute ext w) as [Ha Hsa].
  destruct (authenticate ext w) as [[creds | e] w1 t1] eqn:Hauth;
    cbn in Ha, Hsa.
  2: { rewrite (bind_raise _ _ _ _ _ _ Hauth). cbn.
       repeat split; eauto using no_calls. }
  rewrite (bind_ok _ _ _ _ _ _ Hauth).
  pose proof (get_services_no_execute ext creds w1) as [Hb Hsb].
  destruct (get_services ext creds w1) as [[[] | e] w2 t2] eqn:Hbuild;
    cbn in Hb, Hsb.
  2: { rewrite (bind_raise _ _ _ _ _ _ Hbuild). cbn.
       repeat split; eauto; [| congruence].
       apply no_calls. now apply Forall_app. }
  rewrite (bind_ok _ _ _ _ _ _ Hbuild), after_events_app.
  assert (Hab : calls ((t1 ++ t2) ++ []) = []).
  { apply no_calls. rewrite app_nil_r. now apply Forall_app. }
  assert (Hs : scratch w2 = scratch w) by congruence.
  destruct (lookup_field "course_id" (form req)) as [course_id | e].
  2: { rewrite (bind_lift_raise _ _ _ _ eq_refl). cbn. eauto. }
  rewrite (bind_lift_ok _ _ _ _ eq_refl).
  destruct (lookup_field "assignment_id" (form req)) as [coursework_id | e].
  2: { rewrite (bind_lift_raise _ _ _ _ eq_refl). cbn. eauto. }
  rewrite (bind_lift_ok _ _ _ _ eq_refl).
  destruct (lookup_field "file" (files req)) as [file | e].
  2: { rewrite (bind_lift_raise _ _ _ _ eq_refl). cbn. eauto. }
  destruct Hmiss as [H | [H | H]]; discriminate H.
Qed.

Lemma split_after_prefix {A} (l1 l2 before after : list A) x :
  l1 ++ l2 = before ++ x :: after ->
  ~ In x l1 ->
  exists mid, before = l1 ++ mid.
Proof.
  revert before. induction l1 as [| a l1 IH]; intros before Heq Hnot.
  - exists before. reflexivity.
  - destruct before as [| b before]; cbn in Heq; injection Heq as -> Heq.
    + exfalso. apply Hnot. now left.
    + destruct (IH before Heq) as [mid ->].
      * intros Hin. apply Hnot. now right.
      * exists mid. reflexivity.
Qed.

(** X14.  In a run of the handler, every call on the student's submissions
    comes after the file went to Drive: whatever precedes such a call in the
    trace holds the upload to Drive, answered with a file.  So when the
    submission turns out to be turned in already, or the attachment fails,
    the uploaded copy is on Drive all the same. *)
Theorem upload_precedes_submission_calls req w q r m before after :
  events (submit ext req w) = before ++ Execute q r :: after ->
  is_submission_call m (Execute q r) = true ->
  exists file f,
    lookup_field "file" (files req) = Ok file /\
    In (Execute
          (create_file
             (path_join "uploads" (filename file), content file))
          (Ok f))
       before.
Proof.
  intros Heq Hcall.
  assert (Hin : In (Execute q r) (events (submit ext req w))).
  { rewrite Heq. apply in_or_app. right. now left. }
  destruct (submit_cases ext req w)
    as [(e & _ & Hev) |
        (course_id & coursework_id & file & w1 & pre & _ & _ & Hfile & Hpre
           & Hrun)].
  { rewrite (no_call_among_others _ _ _ Hev Hin) in Hcall. discriminate. }
  exists file. rewrite Hrun in *. clear Hrun.
  set (path := path_join "uploads" (filename file)) in *.
  set (w2 := set_scratch _ w1) in *.
  assert (Hsaved : scratch w2 !! path = Some (content file))
    by apply lookup_insert_eq.
  destruct (submit_body_run ext course_id coursework_id file path w2 _ Hsaved)
    as (o & r' & _ & Hbody).
  unfold try_except in *. rewrite Hbody in *. clear Hbody.
  destruct o as [f | e]; cbn [and_then] in *.
  - exists f. split; [exact Hfile |].
    set (create := Execute (create_file (path, content file)) (Ok f)) in *.
    assert (Hshape : exists tail,
               before ++ Execute q r :: after =
                 (pre ++ [ScratchSave path; create]) ++ tail).
    { rewrite <- Heq.
      destruct (@bind R _ _ _ _ _) as [[resp | e] w3 t3]; cbn; eexists;
        repeat first [rewrite <- app_assoc | progress cbn]; reflexivity. }
    destruct Hshape as (tail & Hshape). symmetry in Hshape.
    destruct (split_after_prefix _ _ _ _ _ Hshape) as [mid ->].
    + intros Hbad. apply in_app_or in Hbad.
      destruct Hbad as [Hbad | [Hbad | [Hbad | []]]].
      * rewrite (no_call_among_others _ _ _ Hpre Hbad) in Hcall.
        discriminate.
      * discriminate Hbad.
      * rewrite <- Hbad in Hcall. discriminate Hcall.
    + apply in_or_app. left. apply in_or_app. right. cbn. auto.
  - exfalso. rewrite (bind_lift_raise _ _ _ _ eq_refl) in Hin.
    cbn in Hin. rewrite !in_app_iff in Hin. cbn in Hin.
    destruct Hin as [[Hin | [Hin | []]] | [Hin | []]]; try discriminate Hin.
    + rewrite (no_call_among_others _ _ _ Hpre Hin) in Hcall. discriminate.
    + injection Hin as <- <-. discriminate Hcall.
Qed.

(** X15.  When the student has no submission yet, [submit_assignment]
    creates one with state DRAFT and patches the one that was created: the
    id in the patch is the id of the service's answer to the creation. *)
Theorem first_submission_is_created_as_draft course_id coursework_id file_id
  name w listing r1 created r2 sid :
  execute ext (list_submissions course_id (JStr coursework_id)) (remote w)
    = (Ok listing, r1) ->
  no_submissions listing = true ->
  execute ext
    (classroom studentSubmissions "create"
       [("courseId", JStr course_id); ("courseWorkId", JStr coursework_id);
        ("body", JDict [("state", JStr "DRAFT")])]) r1
    = (Ok created, r2) ->
  py_getitem created "id" = Ok sid ->
  exists rest,
    events (submit_assignment ext course_id coursework_id file_id name w) =
      Execute (list_submissions course_id (JStr coursework_id)) (Ok listing)
      :: Execute
           (classroom studentSubmissions "create"
              [("courseId", JStr course_id);
               ("courseWorkId", JStr coursework_id);
               ("body", JDict [("state", JStr "DRAFT")])])
           (Ok created)
      :: Execute (patch_request course_id coursework_id sid file_id name)
           (fst (execute ext
                   (patch_request course_id coursework_id sid file_id name)
                   r2))
      :: rest.
Proof.
  intros Hlist Hno Hcreate Hsid.
  destruct (no_submissions_falsy listing Hno) as (subs & Hsubs & Hfalsy).
  unfold submit_assignment, bind, lift, raise, call_execute, external, ret.
  run_with (rewrite ?Hlist, ?Hsubs, ?Hfalsy, ?Hcreate, ?Hsid).
  destruct (execute ext _ r2) as [[p | e] r3]; cbn; eauto.
  destruct (execute ext _ r3) as [[t | e] r4]; cbn; eauto.
Qed.

(** X16.  When the student has a submission that is not turned in,
    [submit_assignment] patches that one, right after the query, and creates
    nothing. *)
Theorem existing_submission_is_reused course_id coursework_id file_id name w
  listing r1 s state sid :
  execute ext (list_submissions course_id (JStr coursework_id)) (remote w)
    = (Ok listing, r1) ->
  existing_submission listing = Some s ->
  submission_field "state" s = Some state ->
  is_str "TURNED_IN" state = false ->
  submission_field "id" s = Some sid ->
  (exists rest,
      events (submit_assignment ext course_id coursework_id file_id name w) =
        Execute (list_submissions course_id (JStr coursework_id)) (Ok listing)
        :: Execute (patch_request course_id coursework_id sid file_id name)
             (fst (execute ext
                     (patch_request course_id coursework_id sid file_id name)
                     r1))
        :: rest) /\
  Forall (fun e => is_submission_call "create" e = false)
    (events (submit_assignment ext course_id coursework_id file_id name w)).
Proof.
  intros Hlist Hs Hstate Hnot Hid.
  unfold existing_submission in Hs.
  destruct listing as [| | | | | d]; try discriminate.
  destruct (assoc "studentSubmissions" d) as [[| | | | [| x l] |] |] eqn:Hd;
    try discriminate.
  injection Hs as ->.
  destruct s as [| | | | | ds]; try discriminate. cbn in Hstate, Hid.
  unfold submit_assignment, bind, lift, raise, call_execute, external, ret.
  rewrite Hlist. cbn.
  unfold py_get, py_getitem, py_truthy, py_first.
  rewrite Hd. cbn. rewrite Hstate. cbn. rewrite Hnot. cbn. rewrite Hid. cbn.
  destruct (execute ext _ r1) as [[p | e] r3]; cbn.
  - destruct (execute ext _ r3) as [[t | e] r4]; cbn; split; eauto;
      repeat constructor.
  - split; eauto; repeat constructor.
Qed.
End SubmitFurther.

Section SubmitSuccess.
Context {R : Type} (ext : externals R).

(** X17.  The success message is given only after the patch and the
    turn-in both returned and the scratch file was removed: these are, in
    this order, the last three things a successful run does, and the message
    names the assignment id of the request. *)
Theorem success_means_patched_turned_in_and_cleaned req w body :
  result (submit ext req w) = Ok (Jsonify 200 body) ->
  exists course_id coursework_id file file_id sid r1 r2 pre,
    lookup_field "course_id" (form req) = Ok course_id /\
    lookup_field "assignment_id" (form req) = Ok coursework_id /\
    lookup_field "file" (files req) = Ok file /\
    body = success_body coursework_id /\
    events (submit ext req w) =
      pre ++
      [Execute
         (patch_request course_id coursework_id sid file_id (filename file))
         (Ok r1);
       Execute (turnIn_request coursework_id sid) (Ok r2);
       ScratchRemove (path_join "uploads" (filename file))].
Proof.
  intros Hres.
  destruct (submit_cases ext req w)
    as [(e & Hraise & _) |
        (course_id & coursework_id & file & w1 & pre & H1 & H2 & H3 & _
           & Hrun)].
  { rewrite Hraise in Hres. discriminate. }
  exists course_id, coursework_id, file.
  rewrite Hrun in *. clear Hrun.
  rewrite result_after_events in Hres. rewrite events_after_events.
  set (path := path_join "uploads" (filename file)) in *.
  set (w2 := set_scratch _ w1) in *.
  assert (Hsaved : scratch w2 !! path = Some (content file))
    by apply lookup_insert_eq.
  destruct (submit_body_run ext course_id coursework_id file path w2 _ Hsaved)
    as (o & r' & _ & Hbody).
  unfold try_except in *. rewrite Hbody in *. clear Hbody.
  destruct (and_then o (fun f => py_get f "id" JNull)) as [file_id | e].
  2: { rewrite (bind_lift_raise _ _ _ _ eq_refl) in Hres. discriminate Hres. }
  exists file_id.
  rewrite (bind_lift_ok _ _ _ _ eq_refl) in *.
  set (w3 := set_remote r' w2) in *.
  pose proof (submit_assignment_ok ext course_id coursework_id file_id
                (filename file) w3) as Hok.
  unfold bind, os_remove in *.
  destruct (submit_assignment ext course_id coursework_id file_id
              (filename file) w3) as [[[] | e] w4 t4]; [| discriminate Hres].
  destruct (Hok eq_refl) as (pre' & sid & r1 & r2 & Ht4 & _).
  cbn in Ht4. subst t4.
  exists sid, r1, r2,
    (pre ++ [ScratchSave path]
         ++ [Execute (create_file (path, content file)) o] ++ pre').
  destruct (scratch w4 !! path); [| discriminate Hres].
  cbn in Hres |- *. injection Hres as <-.
  repeat split; auto.
  repeat first [rewrite <- app_assoc | progress cbn]. reflexivity.
Qed.
End SubmitSuccess.

(** ** File names *)

Lemma string_app_nil_r s : s +:+ EmptyString = s.
Proof.
  induction s as [| a s IH]; [reflexivity |].
  change (String a (s +:+ EmptyString) = String a s). now rewrite IH.
Qed.

Lemma string_app_assoc s t u : (s +:+ t) +:+ u = s +:+ (t +:+ u).
Proof.
  induction s as [| a s IH]; [reflexivity |].
  change (String a ((s +:+ t) +:+ u) = String a (s +:+ (t +:+ u))).
  now rewrite IH.
Qed.

Lemma no_slash_cons c rest :
  str_contains "/" (String c rest) = false ->
  Ascii.eqb c "/" = false /\ str_contains "/" rest = false.
Proof.
  cbn. intros H. apply orb_false_iff in H. destruct H as [Hp Hrest].
  split; [| exact Hrest].
  destruct (Ascii.eqb c "/") eqn:Heq; [| reflexivity].
  apply Ascii.eqb_eq in Heq. subst c.
  destruct (Ascii.ascii_dec "/" "/") as [_ | Hne]; [| congruence].
  destruct rest; discriminate Hp.
Qed.

Lemma basename_from_no_slash p :
  forall acc, str_contains "/" p = false -> basename_from acc p = acc +:+ p.
Proof.
  induction p as [| c rest IH]; intros acc Hno.
  - cbn. now rewrite string_app_nil_r.
  - destruct (no_slash_cons c rest Hno) as [Hc Hrest].
    cbn [basename_from]. rewrite Hc, (IH _ Hrest), string_app_assoc.
    reflexivity.
Qed.

(** X18.  For an uploaded file whose name has no slash, the file is saved
    as uploads/<name>, and the name given to Drive, the base name of that
    path, is the file's own name again. *)
Theorem drive_name_is_the_upload_name name bytes :
  str_contains "/" name = false ->
  path_join "uploads" name = "uploads/" +:+ name /\
  create_file (path_join "uploads" name, bytes) =
    mkRequest "drive" ["files"] "create"
      [("body", JDict [("name", JStr name)]); ("fields", JStr "id")]
      (Some ("uploads/" +:+ name, bytes)).
Proof.
  intros Hno.
  assert (Hp : String.prefix "/" name = false).
  { destruct name as [| c rest]; [reflexivity |].
    change (String.prefix "/" (String c rest)
            || str_contains "/" rest = false) in Hno.
    now apply orb_false_iff in Hno. }
  assert (Hjoin : path_join "uploads" name = "uploads/" +:+ name).
  { unfold path_join. now rewrite Hp. }
  split; [exact Hjoin |].
  unfold create_file. rewrite Hjoin. cbn [fst].
  assert (Hb : basename ("uploads/" +:+ name) = name).
  { unfold basename.
    change (basename_from EmptyString name = name).
    now rewrite basename_from_no_slash. }
  now rewrite Hb.
Qed.

(** ** More on the assignment listing *)

Lemma forall2_in_left {A B} (P : A -> B -> Prop) l l' x :
  Forall2 P l l' -> In x l -> exists y, P x y.
Proof.
  induction 1 as [| a b l l' Hab _ IH]; cbn; [contradiction |].
  intros [<- | Hin]; eauto.
Qed.

Section AssignmentsFurther.
Context {R : Type} (ext : externals R).

(** What one turn of the loop does is the submission query for its item. *)
Lemma assignment_entry_events course_id work w entry :
  result (assignment_entry ext course_id work w) = Ok entry ->
  exists id listing,
    py_getitem work "id" = Ok id /\
    events (assignment_entry ext course_id work w) =
      [Execute (list_submissions course_id id) (Ok listing)].
Proof.
  unfold assignment_entry, bind, lift, call_execute, external, ret.
  destruct (py_getitem work "id") as [id |] eqn:Hid; cbn; [| discriminate].
  destruct (execute ext (list_submissions course_id id) (remote w))
    as [[listing | e] r']; cbn; [| discriminate].
  destruct (submission_status listing) as [status |]; cbn; [| discriminate].
  destruct (format_due (repr_container ext) work) as [due |]; cbn;
    [| discriminate].
  destruct (py_getitem work "title") as [title |]; cbn; [| discriminate].
  intros _. eauto.
Qed.

Lemma assignments_loop_events course_id works :
  forall acc w l,
    result (assignments_loop ext course_id works acc w) = Ok l ->
    Forall2
      (fun work ev =>
         exists id listing,
           py_getitem work "id" = Ok id /\
           ev = Execute (list_submissions course_id id) (Ok listing))
      works (events (assignments_loop ext course_id works acc w)).
Proof.
  induction works as [| work rest IH]; intros acc w l; cbn.
  - constructor.
  - intros H.
    destruct (bind_inv_ok _ _ _ _ H) as (entry & w1 & t1 & Hentry & Hrun).
    rewrite Hrun in *. rewrite result_after_events in H.
    rewrite events_after_events.
    pose proof (assignment_entry_events course_id work w entry) as He.
    rewrite Hentry in He. cbn in He.
    destruct (He eq_refl) as (id & listing & Hid & ->).
    cbn. constructor; eauto.
Qed.

(** X19.  A run of GET /assignments/{course_id} that answers has made
    these calls and no others: the coursework listing, then one submission
    query per listed item, in the order of the items, each for the id of its
    item. *)
Theorem one_query_per_item course_id w resp :
  result (assignments ext course_id w) = Ok resp ->
  exists answer works queries,
    calls (events (assignments ext course_id w)) =
      Execute (list_coursework course_id) (Ok answer) :: queries /\
    listed_works answer = Ok works /\
    Forall2
      (fun work ev =>
         exists id listing,
           py_getitem work "id" = Ok id /\
           ev = Execute (list_submissions course_id id) (Ok listing))
      works queries.
Proof.
  unfold assignments. intros H.
  pose proof (authenticate_no_execute ext w) as [Ha _].
  next_bind H creds w1 t1 Hauth. rewrite Hauth in Ha. cbn in Ha.
  pose proof (get_services_no_execute ext creds w1) as [Hb _].
  next_bind H u w2 t2 Hbuild. rewrite Hbuild in Hb. cbn in Hb.
  next_bind H answer w3 t3 Hlist.
  next_bind H items w4 t4 Hitems.
  next_bind H works w5 t5 Hworks.
  next_bind H entries w6 t6 Hloop.
  apply external_inv in Hlist. destruct Hlist as (_ & -> & _).
  apply lift_inv in Hitems. destruct Hitems as (Hitems & -> & ->).
  apply lift_inv in Hworks. destruct Hworks as (Hworks & -> & ->).
  pose proof (assignments_loop_events course_id works [] w3 entries) as Hl.
  rewrite Hloop in Hl. cbn in Hl. specialize (Hl eq_refl).
  exists answer, works, t6. repeat split.
  - unfold calls. rewrite !List.filter_app.
    fold (calls t1). fold (calls t2). rewrite (no_calls _ Ha), (no_calls _ Hb).
    cbn. f_equal. rewrite app_nil_r.
    clear -Hl. induction Hl as [| work ev ws evs (id & listing & _ & ->) _ IH];
      cbn; [reflexivity | now rewrite IH].
  - unfold listed_works. rewrite <- Hitems. cbn. now rewrite <- Hworks.
  - exact Hl.
Qed.

(** X20.  The loop has no provision for a bad item: if one of the items
    lacks an id or a title, the loop fails as a whole, whatever the other
    items are, and no listing is returned. *)
Theorem one_bad_item_fails_the_listing course_id works work e acc w :
  In work works ->
  py_getitem work "id" = Raise e \/ py_getitem work "title" = Raise e ->
  exists e', result (assignments_loop ext course_id works acc w) = Raise e'.
Proof.
  intros Hin Hbad.
  destruct (result (assignments_loop ext course_id works acc w))
    as [l | e'] eqn:Hres; [| eauto].
  exfalso.
  destruct (assignments_loop_ok ext course_id works acc w l Hres)
    as (entries & _ & Hall).
  destruct (forall2_in_left _ _ _ _ Hall Hin)
    as (entry & id & title & listing & status & due & Hid & Htitle & _).
  destruct Hbad as [H | H]; congruence.
Qed.

(** X21.  A course without coursework: when the coursework listing, the
    first call of the run, answers with no items, the response is the empty
    list and no further call is made. *)
Theorem empty_course_gives_empty_list course_id w answer rest :
  calls (events (assignments ext course_id w)) =
    Execute (list_coursework course_id) (Ok answer) :: rest ->
  listed_works answer = Ok [] ->
  result (assignments ext course_id w) =
    Ok (Jsonify 200 (JDict [("assignments", JList [])])) /\
  rest = [].
Proof.
  unfold assignments. intros Hcalls Hnone.
  pose proof (authenticate_no_execute ext w) as [Ha _].
  destruct (authenticate ext w) as [[creds | e] w1 t1] eqn:Hauth;
    cbn [events] in Ha.
  2: { rewrite (bind_raise _ _ _ _ _ _ Hauth) in Hcalls.
       cbn [events] in Hcalls. rewrite (no_calls _ Ha) in Hcalls.
       discriminate. }
  rewrite (bind_ok _ _ _ _ _ _ Hauth) in *.
  pose proof (get_services_no_execute ext creds w1) as [Hb _].
  destruct (get_services ext creds w1) as [[[] | e] w2 t2] eqn:Hbuild;
    cbn [events] in Hb.
  2: { rewrite (bind_raise _ _ _ _ _ _ Hbuild) in Hcalls.
       cbn [events after_events] in Hcalls.
       rewrite calls_app, (no_calls _ Ha), (no_calls _ Hb) in Hcalls.
       discriminate. }
  rewrite (bind_ok _ _ _ _ _ _ Hbuild), after_events_app in *.
  rewrite result_after_events. rewrite events_after_events in Hcalls.
  rewrite !calls_app, (no_calls _ Ha), (no_calls _ Hb) in Hcalls.
  cbn [app] in Hcalls.
  destruct (call_execute ext (list_coursework course_id) w2)
    as [o w3 t3] eqn:Hcall.
  pose proof (external_inv _ _ _ _ _ _ Hcall) as (_ & -> & _).
  destruct o as [answer' | e].
  2: { rewrite (bind_raise _ _ _ _ _ _ Hcall) in Hcalls. discriminate. }
  rewrite (bind_ok _ _ _ _ _ _ Hcall) in *.
  rewrite result_after_events. rewrite events_after_events in Hcalls.
  rewrite calls_app in Hcalls.
  change (calls [Execute (list_coursework course_id) (Ok answer')])
    with [Execute (list_coursework course_id) (Ok answer')] in Hcalls.
  injection Hcalls as -> Hrest.
  unfold listed_works, and_then in Hnone.
  destruct (py_get answer "courseWork" (JList [])) as [items |];
    [| discriminate].
  rewrite (bind_lift_ok _ _ _ _ eq_refl) in *. rewrite Hnone in *.
  rewrite (bind_lift_ok _ _ _ _ eq_refl) in *.
  cbn in Hrest |- *. auto.
Qed.
End AssignmentsFurther.

(** ** The further theorems at work *)

Lemma auth_without_client_configuration_witness :
  credentials_file unconfigured = None /\
  auth ext unconfigured =
    Run (Ok (Jsonify 500 (error_body "credentials.json not found")))
      unconfigured [].
Proof.
  split; [reflexivity |].
  apply (auth_without_client_configuration ext unconfigured). reflexivity.
Defined.

Lemma auth_stores_what_the_flow_returns_witness :
  result (auth ext assigned) = Ok (RedirectTo "courses") /\
  token_file (after (auth ext assigned)) = Some (JsonDoc (store alice)) /\
  events (auth ext assigned) =
    [TokenUnlink; FlowCreate (Ok tt); FlowRun None (Ok alice);
     TokenWrite alice].
Proof.
  destruct (auth_stores_what_the_flow_returns ext assigned
              (JsonDoc (JDict [])) alice (remote assigned)
              eq_refl eq_refl eq_refl) as (H1 & H2 & H3).
  split; [exact H1 |]. split; [now rewrite H2 | exact H3].
Defined.

Lemma refresh_excludes_consent_witness :
  In (Refresh stale (Raise invalid_grant)) (events (authenticate ext revoked))
  /\ Forall (fun e => is_consent e = false) (events (authenticate ext revoked)).
Proof.
  assert (Hin : In (Refresh stale (Raise invalid_grant))
                  (events (authenticate ext revoked)))
    by (vm_compute; auto).
  split; [exact Hin |].
  exact (refresh_excludes_consent ext revoked _ _ Hin).
Defined.

Lemma returned_credential_is_stored_witness :
  result (authenticate ext renewable) = Ok (Some alice) /\
  exists c,
    Some alice = Some c /\
    (valid c = true ->
     token_file (after (authenticate ext renewable)) =
       Some (JsonDoc (to_json ext c))
     \/
     (after (authenticate ext renewable) = renewable /\
      exists j,
        token_file renewable = Some (JsonDoc j) /\
        from_authorized_user_info ext j = Ok c)).
Proof.
  assert (H : result (authenticate ext renewable) = Ok (Some alice))
    by (vm_compute; reflexivity).
  split; [exact H |].
  exact (returned_credential_is_stored ext renewable _ H).
Defined.

Lemma unusable_token_file_leads_to_consent_witness :
  token_file garbled = Some NotJson /\
  exists rest,
    events (authenticate ext garbled) =
      TokenUnlink
        :: FlowCreate (from_client_secrets_file ext (credentials_file garbled))
        :: rest.
Proof.
  split; [reflexivity |].
  apply (unusable_token_file_leads_to_consent ext garbled NotJson);
    [reflexivity | auto].
Defined.

Lemma first_sign_in_witness :
  token_file configured = None /\ valid alice = true /\
  authenticate ext configured =
    Run (Ok (Some alice))
        (World (Some (JsonDoc (to_json ext alice)))
           (credentials_file configured) (scratch configured)
           (remote configured))
        [FlowCreate (Ok tt);
         FlowUrl (Ok "https://accounts.google.com/o/oauth2/auth");
         FlowRun (Some AUTH_PROMPT) (Ok alice); TokenWrite alice].
Proof.
  split; [reflexivity |]. split; [reflexivity |].
  apply (first_sign_in ext configured
           "https://accounts.google.com/o/oauth2/auth" (remote configured)
           alice (remote configured)); reflexivity.
Defined.

Lemma unreadable_credential_propagates_witness :
  py_contains "refresh_token" (JList [JStr "refresh_token"]) = Ok true /\
  authenticate ext list_token =
    Run (Raise (Exn (LibraryError "ValueError") "not in the expected format"))
      list_token [].
Proof.
  split; [reflexivity |].
  apply (unreadable_credential_propagates ext list_token
           (JList [JStr "refresh_token"])); reflexivity.
Defined.

Lemma no_refresh_without_expiry_and_token_witness :
  valid tokenless = false /\ expired tokenless = false /\
  (exists rest,
      events (authenticate ext half_stored) =
        FlowCreate
          (from_client_secrets_file ext (credentials_file half_stored))
          :: rest)
  /\ forall c' r, ~ In (Refresh c' r) (events (authenticate ext half_stored)).
Proof.
  split; [reflexivity |]. split; [reflexivity |].
  apply (no_refresh_without_expiry_and_token ext half_stored
           (store tokenless) tokenless); auto; reflexivity.
Defined.

Lemma refreshed_credential_is_stored_witness :
  expired stale = true /\ valid alice = true /\
  authenticate ext renewable =
    Run (Ok (Some alice))
        (World (Some (JsonDoc (to_json ext alice)))
           (credentials_file renewable) (scratch renewable)
           (remote renewable))
        [Refresh stale (Ok alice); TokenWrite alice].
Proof.
  split; [reflexivity |]. split; [reflexivity |].
  apply (refreshed_credential_is_stored ext renewable (store stale) stale);
    reflexivity.
Defined.

Lemma courses_lists_id_and_name_witness :
  result (courses enrolled assigned) =
    Ok (Jsonify 200
          (JDict [("courses",
                   JList [JDict [("id", JStr "c1"); ("name", JStr "Algebra")];
                          JDict [("id", JStr "c2"); ("name", JStr "Biology")]])]))
  /\
  exists answer found items entries,
    calls (events (courses enrolled assigned)) =
      [Execute list_courses (Ok answer)] /\
    py_get answer "courses" (JList []) = Ok found /\
    py_iter found = Ok items /\
    Jsonify 200
      (JDict [("courses",
               JList [JDict [("id", JStr "c1"); ("name", JStr "Algebra")];
                      JDict [("id", JStr "c2"); ("name", JStr "Biology")]])])
      = Jsonify 200 (JDict [("courses", JList entries)]) /\
    Forall2
      (fun course entry =>
         exists id name,
           py_getitem course "id" = Ok id /\
           py_getitem course "name" = Ok name /\
           entry = JDict [("id", id); ("name", name)])
      items entries.
Proof.
  assert (H : result (courses enrolled assigned) =
              Ok (Jsonify 200
                    (JDict [("courses",
                             JList [JDict [("id", JStr "c1");
                                           ("name", JStr "Algebra")];
                                    JDict [("id", JStr "c2");
                                           ("name", JStr "Biology")]])])))
    by (vm_compute; reflexivity).
  split; [exact H |].
  exact (courses_lists_id_and_name enrolled assigned _ H).
Defined.

Lemma check_redirect_uri_reports_web_section_witness :
  result (@check_redirect_uri backend configured) =
    Ok (Jsonify 200
          (redirect_report (JList [JStr "http://localhost:8080/"]))).
Proof.
  apply (check_redirect_uri_reports_web_section configured
           [("web",
             JDict [("client_id", JStr "app.apps.googleusercontent.com");
                    ("redirect_uris",
                     JList [JStr "http://localhost:8080/"])])]);
    [reflexivity | vm_compute; eexists; reflexivity].
Defined.

Lemma incomplete_request_is_rejected_witness :
  lookup_field "assignment_id" (form incomplete_post) =
    Raise (Exn BadRequestKeyError "assignment_id") /\
  (exists e, result (submit ext incomplete_post assigned) = Raise e) /\
  calls (events (submit ext incomplete_post assigned)) = [] /\
  scratch (after (submit ext incomplete_post assigned)) = scratch assigned.
Proof.
  split; [reflexivity |].
  apply (incomplete_request_is_rejected ext incomplete_post assigned).
  exists (Exn BadRequestKeyError "assignment_id"). right. left. reflexivity.
Defined.

Lemma upload_precedes_submission_calls_witness :
  exists before,
    events (submit ext post handed_in) =
      before ++
      [Execute (list_submissions "c1" (JStr "w1"))
         (Ok (JDict [("studentSubmissions",
                      JList [submission_json (her_submission "TURNED_IN")])]))]
    /\
    exists file f,
      lookup_field "file" (files post) = Ok file /\
      In (Execute
            (create_file (path_join "uploads" (filename file), content file))
            (Ok f))
         before.
Proof.
  exists [Build "classroom" "v1" (Ok tt); Build "drive" "v3" (Ok tt);
          ScratchSave "uploads/essay.txt";
          Execute (create_file ("uploads/essay.txt", "My essay."))
            (Ok (JDict [("id", JStr "drive-file-1")]))].
  assert (Heq : events (submit ext post handed_in) =
                [Build "classroom" "v1" (Ok tt); Build "drive" "v3" (Ok tt);
                 ScratchSave "uploads/essay.txt";
                 Execute (create_file ("uploads/essay.txt", "My essay."))
                   (Ok (JDict [("id", JStr "drive-file-1")]))]
                ++ Execute (list_submissions "c1" (JStr "w1"))
                     (Ok (JDict [("studentSubmissions",
                                  JList [submission_json
                                           (her_submission "TURNED_IN")])]))
                   :: [])
    by (vm_compute; reflexivity).
  split; [exact Heq |].
  exact (upload_precedes_submission_calls ext post handed_in _ _ "list" _ _
           Heq eq_refl).
Defined.

Lemma first_submission_is_created_as_draft_witness :
  exists rest,
    events (submit_assignment ext "c1" "w1" (JStr "drive-file-1") "essay.txt"
              fresh) =
      Execute (list_submissions "c1" (JStr "w1")) (Ok (JDict []))
      :: Execute
           (classroom studentSubmissions "create"
              [("courseId", JStr "c1"); ("courseWorkId", JStr "w1");
               ("body", JDict [("state", JStr "DRAFT")])])
           (Ok (submission_json (Submission "c1" "w1" "draft-1" "DRAFT" [])))
      :: Execute
           (patch_request "c1" "w1" (JStr "draft-1") (JStr "drive-file-1")
              "essay.txt")
           (fst (execute ext
                   (patch_request "c1" "w1" (JStr "draft-1")
                      (JStr "drive-file-1") "essay.txt")
                   (classroom_with []
                      [Submission "c1" "w1" "draft-1" "DRAFT" []])))
      :: rest.
Proof.
  apply (first_submission_is_created_as_draft ext "c1" "w1"
           (JStr "drive-file-1") "essay.txt" fresh (JDict [])
           (remote fresh)
           (submission_json (Submission "c1" "w1" "draft-1" "DRAFT" []))
           (classroom_with [] [Submission "c1" "w1" "draft-1" "DRAFT" []])
           (JStr "draft-1")); reflexivity.
Defined.

Lemma existing_submission_is_reused_witness :
  Forall (fun e => is_submission_call "create" e = false)
    (events (submit_assignment ext "c1" "w1" (JStr "drive-file-1")
               "essay.txt" assigned)).
Proof.
  apply (existing_submission_is_reused ext "c1" "w1" (JStr "drive-file-1")
           "essay.txt" assigned
           (JDict [("studentSubmissions",
                    JList [submission_json (her_submission "CREATED")])])
           (remote assigned)
           (submission_json (her_submission "CREATED"))
           (JStr "CREATED") (JStr "s1")); reflexivity.
Defined.

Lemma success_means_patched_turned_in_and_cleaned_witness :
  result (submit accepting post assigned) =
    Ok (Jsonify 200 (success_body "w1")) /\
  exists course_id coursework_id file file_id sid r1 r2 pre,
    lookup_field "course_id" (form post) = Ok course_id /\
    lookup_field "assignment_id" (form post) = Ok coursework_id /\
    lookup_field "file" (files post) = Ok file /\
    success_body "w1" = success_body coursework_id /\
    events (submit accepting post assigned) =
      pre ++
      [Execute
         (patch_request course_id coursework_id sid file_id (filename file))
         (Ok r1);
       Execute (turnIn_request coursework_id sid) (Ok r2);
       ScratchRemove (path_join "uploads" (filename file))].
Proof.
  assert (H : result (submit accepting post assigned) =
              Ok (Jsonify 200 (success_body "w1")))
    by (vm_compute; reflexivity).
  split; [exact H |].
  exact (success_means_patched_turned_in_and_cleaned accepting post assigned
           _ H).
Defined.

Lemma drive_name_is_the_upload_name_witness :
  path_join "uploads" "essay.txt" = "uploads/essay.txt" /\
  create_file (path_join "uploads" "essay.txt", "My essay.") =
    mkRequest "drive" ["files"] "create"
      [("body", JDict [("name", JStr "essay.txt")]); ("fields", JStr "id")]
      (Some ("uploads/essay.txt", "My essay.")).
Proof.
  apply (drive_name_is_the_upload_name "essay.txt" "My essay."). reflexivity.
Defined.

Lemma one_query_per_item_witness :
  exists answer works queries,
    calls (events (assignments ext "c1" two_items)) =
      Execute (list_coursework "c1") (Ok answer) :: queries /\
    listed_works answer = Ok works /\
    Forall2
      (fun work ev =>
         exists id listing,
           py_getitem work "id" = Ok id /\
           ev = Execute (list_submissions "c1" id) (Ok listing))
      works queries.
Proof.
  apply (one_query_per_item ext "c1" two_items two_items_response).
  vm_compute. reflexivity.
Defined.

Lemma one_bad_item_fails_the_listing_witness :
  exists e',
    result (assignments_loop ext "c1" [essay_work; untitled_work] [] two_items)
      = Raise e'.
Proof.
  apply (one_bad_item_fails_the_listing ext "c1" [essay_work; untitled_work]
           untitled_work (Exn KeyError "'title'") [] two_items);
    [cbn; auto | right; reflexivity].
Defined.

Lemma empty_course_gives_empty_list_witness :
  result (assignments ext "c1" assigned) =
    Ok (Jsonify 200 (JDict [("assignments", JList [])])) /\
  @nil event = [].
Proof.
  apply (empty_course_gives_empty_list ext "c1" assigned (JDict []) []);
    vm_compute; reflexivity.
Defined.

Lemma upload_removed_only_on_success_witness :
  (exists body,
      Jsonify 500 (error_body "Assignment already turned in.")
        = Jsonify 200 body /\
      scratch (after (submit ext post handed_in))
        !! path_join "uploads" (filename essay) = None) \/
  (exists body,
      Jsonify 500 (error_body "Assignment already turned in.")
        = Jsonify 500 body /\
      scratch (after (submit ext post handed_in))
        !! path_join "uploads" (filename essay) = Some (content essay)).
Proof.
  apply (upload_removed_only_on_success ext post handed_in essay);
    [reflexivity | vm_compute; reflexivity].
Defined.

(** ** Who writes the token file *)

Section TokenWrites.
Context {R : Type} (ext : externals R).

End TokenWrites.


